(** * [05-objects-tasks.js]: the CSS selector builder, [getJSON], [fromJSON]

    A shallow embedding of the class [CssSelectorBuilder], of the exported
    instance [cssSelectorBuilder] and of the functions [getJSON] and
    [fromJSON], followed by their properties.

    JavaScript objects are mutable and are passed by reference, and every
    method of the class returns [this].  The embedding therefore keeps an
    explicit object store: a method takes the location of its receiver and
    runs in a small state-and-exception monad over the store. *)

From Stdlib Require Import String Ascii List DecimalString.
From stdpp Require Import strings gmap.
Import ListNotations.


(** ** Values, objects and the store *)

(** Object references. *)
Definition loc := positive.

(** The JavaScript values that reach the builder: strings, references to
    builder instances, and [undefined] for a parameter that received no
    argument. *)
Inductive jsval : Type :=
  | JUndefined
  | JStr (s : string)
  | JRef (l : loc).

(** String conversion inside a template literal, [`${v}`]. *)
Definition to_string (v : jsval) : string :=
  match v with
  | JUndefined => "undefined"
  | JStr s => s
  | JRef _ => "[object Object]"
  end.

(** Truthiness of a string: the empty string is the only falsy one. *)
Definition truthy (s : string) : bool := negb (String.eqb s "").

(** [Array.prototype.join] on an array of strings. *)
Fixpoint join (sep : string) (xs : list string) : string :=
  match xs with
  | [] => ""
  | [x] => x
  | x :: rest => x +:+ sep +:+ join sep rest
  end.

(** The own properties of a [CssSelectorBuilder] instance.  [selector1] and
    [selector2] hold [null] ([None]) or a reference to an instance. *)
Record instance : Type := mkInstance {
  elementType : string;
  idName : string;
  classNames : list string;
  attributes : list string;
  pseudoClasses : list string;
  pseudoElem : string;
  selector1 : option loc;
  selector2 : option loc;
  combinator : jsval
}.

Definition set_elementType (v : string) (o : instance) : instance :=
  mkInstance v (idName o) (classNames o) (attributes o) (pseudoClasses o)
             (pseudoElem o) (selector1 o) (selector2 o) (combinator o).

Definition set_idName (v : string) (o : instance) : instance :=
  mkInstance (elementType o) v (classNames o) (attributes o) (pseudoClasses o)
             (pseudoElem o) (selector1 o) (selector2 o) (combinator o).

Definition set_classNames (v : list string) (o : instance) : instance :=
  mkInstance (elementType o) (idName o) v (attributes o) (pseudoClasses o)
             (pseudoElem o) (selector1 o) (selector2 o) (combinator o).

Definition set_attributes (v : list string) (o : instance) : instance :=
  mkInstance (elementType o) (idName o) (classNames o) v (pseudoClasses o)
             (pseudoElem o) (selector1 o) (selector2 o) (combinator o).

Definition set_pseudoClasses (v : list string) (o : instance) : instance :=
  mkInstance (elementType o) (idName o) (classNames o) (attributes o) v
             (pseudoElem o) (selector1 o) (selector2 o) (combinator o).

Definition set_pseudoElem (v : string) (o : instance) : instance :=
  mkInstance (elementType o) (idName o) (classNames o) (attributes o)
             (pseudoClasses o) v (selector1 o) (selector2 o) (combinator o).

Definition set_combinator (v : jsval) (o : instance) : instance :=
  mkInstance (elementType o) (idName o) (classNames o) (attributes o)
             (pseudoClasses o) (pseudoElem o) (selector1 o) (selector2 o) v.

(** The object store. *)
Abbreviation heap := (gmap loc instance).

(** ** The monad of method bodies *)

(** [TypeError]: a property read on [null] (or a call on a reference that
    the store does not hold).  [RangeError]: the call stack is exhausted. *)
Inductive error : Type :=
  | TypeError
  | RangeError.

(** A computation returns a value or throws; either way it leaves a store
    behind, since the writes made before a [throw] stay. *)
Inductive result (A : Type) : Type :=
  | Ok (a : A) (h : heap)
  | Throw (e : error) (h : heap).

Arguments Ok {A} a h.
Arguments Throw {A} e h.

Definition M (A : Type) : Type := heap -> result A.

Definition ret {A} (a : A) : M A := fun h => Ok a h.

Definition throw {A} (e : error) : M A := fun h => Throw e h.

Definition bind {A B} (m : M A) (k : A -> M B) : M B :=
  fun h =>
    match m h with
    | Ok a h' => k a h'
    | Throw e h' => Throw e h'
    end.

Notation "'let*' x ':=' m 'in' k" := (bind m (fun x => k))
  (at level 10, x name, m at level 100, k at level 200).
Notation "m ';;' k" := (bind m (fun _ => k))
  (at level 100, k at level 200, right associativity).

(** The store a computation leaves behind. *)
Definition final_heap {A} (r : result A) : heap :=
  match r with
  | Ok _ h => h
  | Throw _ h => h
  end.

(** Reading the receiver's properties, and writing one of them. *)
Definition read (this : loc) : M instance :=
  fun h =>
    match h !! this with
    | Some o => Ok o h
    | None => Throw TypeError h
    end.

Definition write (this : loc) (f : instance -> instance) : M unit :=
  fun h =>
    match h !! this with
    | Some o => Ok tt (<[this := f o]> h)
    | None => Throw TypeError h
    end.

(** ** The class [CssSelectorBuilder] *)

Module CssSelectorBuilder.

(** The properties the constructor assigns. *)
Definition constructor : instance :=
  mkInstance "" "" [] [] [] "" None None (JStr "").

(** [new CssSelectorBuilder()]. *)
Definition new : M loc :=
  fun h =>
    let l := fresh (dom h) in
    Ok l (<[l := constructor]> h).

Definition clean (this : loc) : M unit :=
  write this (set_elementType "");;
  write this (set_idName "");;
  write this (set_classNames []);;
  write this (set_attributes []);;
  write this (set_pseudoClasses []);;
  write this (set_pseudoElem "");;
  write this (fun o => mkInstance (elementType o) (idName o) (classNames o)
                         (attributes o) (pseudoClasses o) (pseudoElem o)
                         None (selector2 o) (combinator o));;
  write this (fun o => mkInstance (elementType o) (idName o) (classNames o)
                         (attributes o) (pseudoClasses o) (pseudoElem o)
                         (selector1 o) None (combinator o));;
  write this (set_combinator (JStr "")).

Definition element (this : loc) (value : string) : M loc :=
  let* o := read this in
  (if negb (truthy (elementType o))
   then write this (set_elementType value)
   else ret tt);;
  ret this.

Definition id (this : loc) (value : string) : M loc :=
  write this (set_idName value);;
  ret this.

Definition class (this : loc) (value : string) : M loc :=
  let* o := read this in
  write this (set_classNames (classNames o ++ [value]));;
  ret this.

Definition attr (this : loc) (value : string) : M loc :=
  let* o := read this in
  write this (set_attributes (attributes o ++ [value]));;
  ret this.

Definition pseudoClass (this : loc) (value : string) : M loc :=
  let* o := read this in
  write this (set_pseudoClasses (pseudoClasses o ++ [value]));;
  ret this.

Definition pseudoElement (this : loc) (value : string) : M loc :=
  write this (set_pseudoElem value);;
  ret this.

(** [combine] declares one parameter.  A call may pass any number of
    arguments: the first is bound to [combinator], the others are dropped,
    and with no argument the parameter is [undefined]. *)
Definition combine (this : loc) (args : list jsval) : M loc :=
  let combinator := nth 0 args JUndefined in
  write this (set_combinator combinator);;
  ret this.

(** The [else] branch of [stringify]: the fragments of a simple selector. *)
Definition simple (o : instance) : string :=
  let result := "" in
  let result :=
    if truthy (elementType o) then result +:+ elementType o else result in
  let result :=
    if truthy (idName o) then result +:+ "#" +:+ idName o else result in
  let result :=
    if 0 <? length (classNames o)
    then result +:+ "." +:+ join "." (classNames o) else result in
  let result :=
    if 0 <? length (attributes o)
    then result +:+ "[" +:+ join "" (attributes o) +:+ "]" else result in
  let result :=
    if 0 <? length (pseudoClasses o)
    then result +:+ ":" +:+ join ":" (pseudoClasses o) else result in
  let result :=
    if truthy (pseudoElem o) then result +:+ "::" +:+ pseudoElem o else result in
  result.

(** [stringify] calls itself on [selector1] and [selector2], which may be
    any references, so the recursion is bounded by the depth of the call
    stack, [fuel]; running out of it is the engine's [RangeError]. *)
Fixpoint stringify (fuel : nat) (this : loc) : M string :=
  match fuel with
  | O => throw RangeError
  | S fuel' =>
      let result := "" in
      let* o := read this in
      let* result :=
        match selector1 o with
        | Some s1 =>
            let* r1 := stringify fuel' s1 in
            let result := result +:+ r1 in
            let* o := read this in
            let result := result +:+ " " +:+ to_string (combinator o) +:+ " " in
            let* o := read this in
            match selector2 o with
            | Some s2 =>
                let* r2 := stringify fuel' s2 in
                ret (result +:+ r2)
            | None => throw TypeError
            end
        | None => ret (result +:+ simple o)
        end in
      clean this;;
      ret result
  end.

End CssSelectorBuilder.

(** ** The module's exports *)

(** [const cssSelectorBuilder = new CssSelectorBuilder()], run once when the
    module is loaded, on the empty store. *)
Definition cssSelectorBuilder : loc := 1%positive.

Definition module_heap : heap := {[ cssSelectorBuilder := CssSelectorBuilder.constructor ]}.

(** ** Call chains *)

(** The chainable methods, each with its arguments. *)
Inductive call : Type :=
  | Element (value : string)
  | Id (value : string)
  | Class (value : string)
  | Attr (value : string)
  | PseudoClass (value : string)
  | PseudoElement (value : string)
  | Combine (args : list jsval).

(** The method call [receiver.c(...)]. *)
Definition invoke (receiver : loc) (c : call) : M loc :=
  match c with
  | Element v => CssSelectorBuilder.element receiver v
  | Id v => CssSelectorBuilder.id receiver v
  | Class v => CssSelectorBuilder.class receiver v
  | Attr v => CssSelectorBuilder.attr receiver v
  | PseudoClass v => CssSelectorBuilder.pseudoClass receiver v
  | PseudoElement v => CssSelectorBuilder.pseudoElement receiver v
  | Combine args => CssSelectorBuilder.combine receiver args
  end.

(** The fluent chain [receiver.c1(...).c2(...)...]: every call is made on
    the value the call before it returned. *)
Fixpoint chain (receiver : loc) (cs : list call) : M loc :=
  match cs with
  | [] => ret receiver
  | c :: rest => let* r := invoke receiver c in chain r rest
  end.

(** A whole build chain on the exported builder, ended by [stringify]:
    [cssSelectorBuilder.c1(...)...cn(...).stringify()]. *)
Definition render_chain (fuel : nat) (cs : list call) : M string :=
  let* r := chain cssSelectorBuilder cs in
  CssSelectorBuilder.stringify fuel r.

(** The value a computation returned, if it returned. *)
Definition output {A} (r : result A) : option A :=
  match r with
  | Ok a _ => Some a
  | Throw _ _ => None
  end.

(** A computation that ended in an exception. *)
Definition throws {A} (r : result A) : Prop :=
  match r with
  | Ok _ _ => False
  | Throw _ _ => True
  end.

(** ** The rendering in the words of the specification *)

Definition flat (xs : list string) : string := fold_right String.append "" xs.

(** Every item with [p] in front of it. *)
Definition prefixed (p : string) (xs : list string) : string :=
  flat (map (String.append p) xs).

Definition element_group (o : instance) : string := elementType o.

Definition id_group (o : instance) : string :=
  if decide (idName o = "") then "" else "#" +:+ idName o.

Definition class_group (o : instance) : string := prefixed "." (classNames o).

Definition attribute_group (o : instance) : string :=
  match attributes o with
  | [] => ""
  | _ => "[" +:+ flat (attributes o) +:+ "]"
  end.

Definition pseudoClass_group (o : instance) : string :=
  prefixed ":" (pseudoClasses o).

Definition pseudoElement_group (o : instance) : string :=
  if decide (pseudoElem o = "") then "" else "::" +:+ pseudoElem o.

(** The groups in the canonical order, nothing between them. *)
Definition canonical (o : instance) : string :=
  element_group o +:+ id_group o +:+ class_group o +:+ attribute_group o
  +:+ pseudoClass_group o +:+ pseudoElement_group o.

(** ** The effect of a chain on its receiver *)

(** What one call does to the properties of its receiver. *)
Definition apply_call (c : call) (o : instance) : instance :=
  match c with
  | Element v => if truthy (elementType o) then o else set_elementType v o
  | Id v => set_idName v o
  | Class v => set_classNames (classNames o ++ [v]) o
  | Attr v => set_attributes (attributes o ++ [v]) o
  | PseudoClass v => set_pseudoClasses (pseudoClasses o ++ [v]) o
  | PseudoElement v => set_pseudoElem v o
  | Combine args => set_combinator (nth 0 args JUndefined) o
  end.

Definition run_calls (cs : list call) (o : instance) : instance :=
  fold_left (fun acc c => apply_call c acc) cs o.

(** The kinds of call, to compare two chains kind by kind. *)
Inductive kind : Type :=
  | KElement | KId | KClass | KAttr | KPseudoClass | KPseudoElement | KCombine.

Definition kind_of (c : call) : kind :=
  match c with
  | Element _ => KElement
  | Id _ => KId
  | Class _ => KClass
  | Attr _ => KAttr
  | PseudoClass _ => KPseudoClass
  | PseudoElement _ => KPseudoElement
  | Combine _ => KCombine
  end.

#[global] Instance kind_eq_dec : EqDecision kind.
Proof. solve_decision. Defined.

(** The calls of kind [k] in a chain, in the order they were made. *)
Definition calls_of (k : kind) (cs : list call) : list call :=
  filter (fun c => kind_of c = k) cs.

(** Two chains that make the same calls of every kind in the same order,
    the kinds interleaved in any way. *)
Definition same_calls_per_kind (cs1 cs2 : list call) : Prop :=
  forall k, calls_of k cs1 = calls_of k cs2.

(** ** The heaps a client can produce *)

(** One step of a client: create an instance, or call a method on any
    reference. *)
Inductive step : heap -> heap -> Prop :=
  | step_new h :
      step h (final_heap (CssSelectorBuilder.new h))
  | step_call h this c :
      step h (final_heap (invoke this c h))
  | step_stringify h this fuel :
      step h (final_heap (CssSelectorBuilder.stringify fuel this h)).

Definition reachable (h : heap) : Prop := rtc step module_heap h.

(** The invariant: no instance is a combination. *)
Definition no_combination (h : heap) : Prop :=
  forall l o, h !! l = Some o -> selector1 o = None /\ selector2 o = None.

(** ** Client programs used below *)

(** [cssSelectorBuilder.combine(L, op, R).stringify()] for references [L]
    and [R] already built. *)
Definition render_combined (fuel : nat) (L : loc) (op : string) (R : loc)
  : M string :=
  let* c := CssSelectorBuilder.combine cssSelectorBuilder
              [JRef L; JStr op; JRef R] in
  CssSelectorBuilder.stringify fuel c.

(** [builder.combine(builder.combine(builder.element('div'), '+',
    builder.element('span')), '>', builder.element('p')).stringify()], the
    arguments evaluated from left to right before each call. *)
Definition div_plus_span_gt_p (fuel : nat) : M string :=
  let builder := cssSelectorBuilder in
  let* l := CssSelectorBuilder.element builder "div" in
  let* r := CssSelectorBuilder.element builder "span" in
  let* inner := CssSelectorBuilder.combine builder [JRef l; JStr "+"; JRef r] in
  let* p := CssSelectorBuilder.element builder "p" in
  let* outer := CssSelectorBuilder.combine builder [JRef inner; JStr ">"; JRef p] in
  CssSelectorBuilder.stringify fuel outer.

(** Two chains whose building calls are interleaved: chain A makes the
    calls [csA], then chain B makes the calls [csB], then A is rendered and
    after it B. *)
Definition interleaved (fuel : nat) (csA csB : list call)
  : M (loc * loc * string * string) :=
  let* a := chain cssSelectorBuilder csA in
  let* b := chain cssSelectorBuilder csB in
  let* sa := CssSelectorBuilder.stringify fuel a in
  let* sb := CssSelectorBuilder.stringify fuel b in
  ret (a, b, sa, sb).

(** What isolation of two interleaved chains would mean: each of them
    renders what it renders when it is run alone. *)
Definition chains_isolated (fuel : nat) (csA csB : list call) : Prop :=
  exists a b sa sb h',
    interleaved fuel csA csB module_heap = Ok (a, b, sa, sb) h'
    /\ output (render_chain fuel csA module_heap) = Some sa
    /\ output (render_chain fuel csB module_heap) = Some sb.

(** Two chains one after the other: A is built and rendered, then B. *)
Definition sequential (fuel : nat) (csA csB : list call)
  : M (string * string) :=
  let* sa := render_chain fuel csA in
  let* sb := render_chain fuel csB in
  ret (sa, sb).

(** ** Further client programs *)

(** Two chains on two references [a] and [b], their building calls
    interleaved: the calls [csA] on [a], the calls [csB] on [b], then [a] is
    rendered and after it [b]. *)
Definition interleaved_on (fuel : nat) (a b : loc) (csA csB : list call)
  : M (string * string) :=
  let* ra := chain a csA in
  let* rb := chain b csB in
  let* sa := CssSelectorBuilder.stringify fuel ra in
  let* sb := CssSelectorBuilder.stringify fuel rb in
  ret (sa, sb).

(** [this.stringify()] twice in a row; the pair of the two strings. *)
Definition stringify_twice (fuel : nat) (this : loc) : M (string * string) :=
  let* s1 := CssSelectorBuilder.stringify fuel this in
  let* s2 := CssSelectorBuilder.stringify fuel this in
  ret (s1, s2).

(** A chain with its [combine] calls left out. *)
Definition without_combine (cs : list call) : list call :=
  filter (fun c => kind_of c <> KCombine) cs.

(** The arguments of the [class], [attr] and [pseudoClass] calls of a chain,
    in call order. *)
Definition class_values (cs : list call) : list string :=
  omap (fun c => match c with Class v => Some v | _ => None end) cs.

Definition attr_values (cs : list call) : list string :=
  omap (fun c => match c with Attr v => Some v | _ => None end) cs.

Definition pseudoClass_values (cs : list call) : list string :=
  omap (fun c => match c with PseudoClass v => Some v | _ => None end) cs.

(** The second example of the class's doc comment, a combination of four
    chains: [builder.combine(builder.element('div').id('main')
    .class('container').class('draggable'), '+',
    builder.combine(builder.element('table').id('data'), '~',
    builder.combine(builder.element('tr').pseudoClass('nth-of-type(even)'),
    ' ', builder.element('td').pseudoClass('nth-of-type(even)')))).stringify()],
    the arguments evaluated from left to right before each call. *)
Definition doc_example_combination (fuel : nat) : M string :=
  let builder := cssSelectorBuilder in
  let* div := chain builder
                [Element "div"; Id "main"; Class "container"; Class "draggable"] in
  let* table := chain builder [Element "table"; Id "data"] in
  let* tr := chain builder [Element "tr"; PseudoClass "nth-of-type(even)"] in
  let* td := chain builder [Element "td"; PseudoClass "nth-of-type(even)"] in
  let* inner := CssSelectorBuilder.combine builder [JRef tr; JStr " "; JRef td] in
  let* middle := CssSelectorBuilder.combine builder
                   [JRef table; JStr "~"; JRef inner] in
  let* outer := CssSelectorBuilder.combine builder
                  [JRef div; JStr "+"; JRef middle] in
  CssSelectorBuilder.stringify fuel outer.

(** ** [getJSON] and [fromJSON]

    The two functions are one call and three calls of built-ins of the
    language: [JSON.stringify], [JSON.parse], [Object.create] and
    [Object.assign].  The built-ins are embedded as ECMAScript documents
    them, on the values the two functions are meant for: plain data, and
    ordinary objects as prototypes, in an environment whose
    [Object.prototype] is the standard one. *)

Module ObjectsTasks.

(** Numbers are doubles.  A finite one is written [m * 2^e]; negative zero,
    [NaN] and the two infinities are named, since [JSON.stringify] treats
    them apart. *)
Inductive number : Type :=
  | Finite (m e : Z)
  | NegativeZero
  | NaN
  | PositiveInfinity
  | NegativeInfinity.

(** Plain data: [null], booleans, numbers, strings, arrays of plain data,
    and objects whose own properties are plain data under string keys, in
    the order of enumeration.  Values of other kinds ([undefined],
    functions, symbols, objects with accessors, with [toJSON] or with
    cycles) are outside the embedding. *)
#[warnings="-register-all"]
Inductive data : Type :=
  | Null
  | Bool (b : bool)
  | Number (x : number)
  | Str (s : string)
  | Array (items : list data)
  | Object (members : list (string * data)).

Inductive exception : Type :=
  | SyntaxError
  | TypeError
  | SetterException.

Inductive outcome (A : Type) : Type :=
  | Returned (a : A)
  | Thrown (e : exception).

Arguments Returned {A} a.
Arguments Thrown {A} e.

(** A string handed to [JSON.parse] is JSON text or it is not.  JSON text is
    represented by the value it denotes, the one [JSON.parse] returns for
    it, and not by its characters. *)
Inductive text : Type :=
  | Denotes (v : data)
  | Malformed.

(** [JSON.stringify] writes a number that is not finite as [null], and
    negative zero as [0]. *)
Definition number_in_text (x : number) : data :=
  match x with
  | Finite m e => Number (Finite m e)
  | NegativeZero => Number (Finite 0 0)
  | NaN | PositiveInfinity | NegativeInfinity => Null
  end.

(** The value the text written for [v] denotes. *)
Fixpoint in_text (v : data) : data :=
  match v with
  | Number x => number_in_text x
  | Array items => Array (map in_text items)
  | Object members => Object (map (fun kv => (fst kv, in_text (snd kv))) members)
  | Null | Bool _ | Str _ => v
  end.

Definition JSON_stringify (v : data) : text := Denotes (in_text v).

Definition JSON_parse (t : text) : outcome data :=
  match t with
  | Denotes v => Returned v
  | Malformed => Thrown SyntaxError
  end.

(** Plain data that JSON text denotes as it is: every number in it, at any
    depth, is finite and is not negative zero. *)
Fixpoint serializable (v : data) : bool :=
  match v with
  | Number (Finite _ _) => true
  | Number _ => false
  | Array items => forallb serializable items
  | Object members => forallb (fun kv => serializable (snd kv)) members
  | Null | Bool _ | Str _ => true
  end.

(** The own properties of an object made by [fromJSON], in the order of
    their creation. *)
Definition properties : Type := list (string * data).

(** A set function of an accessor property, by what a call of it with a
    value does to the own properties of its receiver; [None] when it
    throws. *)
Definition setter : Type := data -> properties -> option properties.

(** What an assignment [receiver[key] = value] finds under [key] when it
    walks the prototype chain: the first property with that key. *)
Inductive slot : Type :=
  | WritableData
  | ReadOnlyData
  | Setter (set : setter)
  | GetterOnly
  | ProtoAccessor.

(** An object used as a prototype, by what its chain (the object itself,
    then its prototype, and so on) holds under each key.  [ProtoAccessor]
    is the accessor [__proto__] of the standard [Object.prototype]. *)
Record prototype_object : Type := Prototype {
  along_chain : gmap string slot
}.

(** The prototype of an object made by [fromJSON]: [null], the object
    passed as [proto], or an object or array that came out of
    [JSON.parse]. *)
Inductive prototype_of : Type :=
  | ProtoNull
  | ProtoArgument (p : prototype_object)
  | ProtoParsed (v : data).

Record object : Type := mkObject {
  prototype : prototype_of;
  own : properties
}.

(** [Object.create(proto)] for [proto] an object or [null]. *)
Definition Object_create (proto : option prototype_object) : object :=
  match proto with
  | Some p => mkObject (ProtoArgument p) []
  | None => mkObject ProtoNull []
  end.

Definition has_own (key : string) (ps : properties) : bool :=
  existsb (String.eqb key) (map fst ps).

Definition update_own (key : string) (v : data) (ps : properties) : properties :=
  map (fun kv => if String.eqb key (fst kv) then (key, v) else kv) ps.

(** The first property with [key] on the chain that starts at the
    prototype, if there is one.  An object or array that [JSON.parse] made
    inherits from the standard [Object.prototype], every property of which
    is a writable data property, [__proto__] apart. *)
Definition first_on_chain (p : prototype_of) (key : string) : option slot :=
  match p with
  | ProtoNull => None
  | ProtoArgument q => along_chain q !! key
  | ProtoParsed (Object members) =>
      if has_own key members then Some WritableData
      else if String.eqb key "__proto__" then Some ProtoAccessor
      else None
  | ProtoParsed _ =>
      if String.eqb key "__proto__" then Some ProtoAccessor else None
  end.

(** The assignment [o[key] = v] in strict mode, as [Object.assign] makes
    it.  An own property is overwritten.  Otherwise the chain decides: with
    no property, or a writable data property, an own property is created;
    a set function is called on [o] and creates nothing by itself; a
    read-only property or an accessor without a set function makes the
    assignment fail with a [TypeError]; the [__proto__] accessor replaces
    the prototype by an object or [null] and ignores other values. *)
Definition assign_property (o : object) (key : string) (v : data)
  : outcome object :=
  if has_own key (own o)
  then Returned (mkObject (prototype o) (update_own key v (own o)))
  else
    match first_on_chain (prototype o) key with
    | None | Some WritableData =>
        Returned (mkObject (prototype o) (own o ++ [(key, v)]))
    | Some ReadOnlyData | Some GetterOnly => Thrown TypeError
    | Some (Setter set) =>
        match set v (own o) with
        | Some ps => Returned (mkObject (prototype o) ps)
        | None => Thrown SetterException
        end
    | Some ProtoAccessor =>
        match v with
        | Null => Returned (mkObject ProtoNull (own o))
        | Object _ | Array _ => Returned (mkObject (ProtoParsed v) (own o))
        | Bool _ | Number _ | Str _ => Returned o
        end
    end.

(** The characters of a string, one string each. *)
Fixpoint characters (s : string) : list string :=
  match s with
  | EmptyString => []
  | String c rest => String c EmptyString :: characters rest
  end.

(** The own enumerable properties of a source of [Object.assign]: the
    members of an object, the elements of an array and the characters of a
    string under their indices; [null], a boolean and a number have none. *)
Definition own_enumerable (source : data) : properties :=
  match source with
  | Object members => members
  | Array items =>
      imap (fun i x => (NilZero.string_of_uint (Nat.to_uint i), x)) items
  | Str s =>
      imap (fun i c => (NilZero.string_of_uint (Nat.to_uint i), Str c))
           (characters s)
  | Null | Bool _ | Number _ => []
  end.

Fixpoint assign_properties (target : object) (ps : properties)
  : outcome object :=
  match ps with
  | [] => Returned target
  | (key, v) :: rest =>
      match assign_property target key v with
      | Returned target' => assign_properties target' rest
      | Thrown e => Thrown e
      end
  end.

(** [Object.assign(target, source)].  It changes [target] in place and
    returns it; the embedding returns the changed [target]. *)
Definition Object_assign (target : object) (source : data) : outcome object :=
  assign_properties target (own_enumerable source).

Definition getJSON (obj : data) : text := JSON_stringify obj.

Definition fromJSON (proto : option prototype_object) (json : text)
  : outcome object :=
  let obj := Object_create proto in
  match JSON_parse json with
  | Returned parsed =>
      match Object_assign obj parsed with
      | Returned obj' => Returned obj'
      | Thrown e => Thrown e
      end
  | Thrown e => Thrown e
  end.

(** [proto] lets [fromJSON] create an own property under [key]: its chain
    holds nothing under [key], or a writable data property. *)
Definition creates_own (proto : option prototype_object) (key : string) : bool :=
  match proto with
  | None => true
  | Some p =>
      match along_chain p !! key with
      | None | Some WritableData => true
      | Some _ => false
      end
  end.

(** No key occurs twice. *)
Fixpoint distinct (keys : list string) : bool :=
  match keys with
  | [] => true
  | k :: rest => negb (existsb (String.eqb k) rest) && distinct rest
  end.

(** [class Circle { set radius(v) { this._radius = v; } }]: the chain of
    [Circle.prototype] holds the accessor [radius] with a set function that
    stores the value under [_radius], and what [Object.prototype] holds. *)
Definition circle_with_setter : prototype_object :=
  Prototype
    (<["radius" := Setter (fun v ps =>
                     Some (if has_own "_radius" ps
                           then update_own "_radius" v ps
                           else ps ++ [("_radius", v)]))]>
       (<["constructor" := WritableData]>
          (<["toString" := WritableData]>
             (<["__proto__" := ProtoAccessor]> ∅)))).

(** [function Circle() {}] with [Circle.prototype.getArea] a method: the
    chain holds writable data properties and the accessor [__proto__]. *)
Definition circle_with_method : prototype_object :=
  Prototype
    (<["getArea" := WritableData]>
       (<["constructor" := WritableData]>
          (<["toString" := WritableData]>
             (<["__proto__" := ProtoAccessor]> ∅)))).

(** [class Rect { get area() { return this.width * this.height; } }]: the
    chain of [Rect.prototype] holds the accessor [area] without a set
    function, and what [Object.prototype] holds. *)
Definition rect_with_getter : prototype_object :=
  Prototype
    (<["area" := GetterOnly]>
       (<["constructor" := WritableData]>
          (<["toString" := WritableData]>
             (<["__proto__" := ProtoAccessor]> ∅)))).

End ObjectsTasks.

(** * Properties *)

Lemma module_load :
  CssSelectorBuilder.new ∅ = Ok cssSelectorBuilder module_heap.
Proof. vm_compute. reflexivity. Qed.

Example stringify_fresh :
  CssSelectorBuilder.stringify 1 cssSelectorBuilder module_heap = Ok "" module_heap.
Proof. vm_compute. reflexivity. Qed.

(** ** Strings *)

Lemma append_cons (a : ascii) (s t : string) :
  String a s +:+ t = String a (s +:+ t).
Proof. reflexivity. Qed.

Lemma append_nil_l (s : string) : "" +:+ s = s.
Proof. reflexivity. Qed.

Lemma append_nil_r (s : string) : s +:+ "" = s.
Proof.
  induction s as [|a s IH]; [reflexivity|].
  rewrite append_cons. f_equal. exact IH.
Qed.

Lemma append_assoc (s1 s2 s3 : string) :
  (s1 +:+ s2) +:+ s3 = s1 +:+ (s2 +:+ s3).
Proof.
  induction s1 as [|a s1 IH]; [reflexivity|].
  rewrite !append_cons. f_equal. exact IH.
Qed.

Lemma truthy_false (s : string) : truthy s = false <-> s = "".
Proof.
  unfold truthy. rewrite negb_false_iff. apply String.eqb_eq.
Qed.

Lemma truthy_true (s : string) : truthy s = true <-> s <> "".
Proof.
  unfold truthy. rewrite negb_true_iff. apply String.eqb_neq.
Qed.

Lemma truthy_decide (s : string) :
  truthy s = if decide (s = "") then false else true.
Proof.
  destruct (decide (s = "")) as [E|E].
  - now apply truthy_false.
  - now apply truthy_true.
Qed.

Lemma join_empty_sep (xs : list string) : join "" xs = flat xs.
Proof.
  induction xs as [|x [|y ys] IH]; simpl in *.
  - reflexivity.
  - now rewrite append_nil_r.
  - now rewrite IH.
Qed.

Lemma join_prefixed (sep : string) (x : string) (xs : list string) :
  sep +:+ join sep (x :: xs) = prefixed sep (x :: xs).
Proof.
  revert x. induction xs as [|y ys IH]; intros x.
  - unfold prefixed. simpl. now rewrite !append_nil_r.
  - change (join sep (x :: y :: ys)) with (x +:+ sep +:+ join sep (y :: ys)).
    rewrite IH. unfold prefixed. simpl. now rewrite !append_assoc.
Qed.

(** The code's [else] branch and the specification's wording agree. *)
Lemma simple_canonical (o : instance) :
  CssSelectorBuilder.simple o = canonical o.
Proof.
  unfold CssSelectorBuilder.simple, canonical, element_group, id_group,
    class_group, attribute_group, pseudoClass_group, pseudoElement_group.
  destruct o as [e i cl at_ pc pe s1 s2 cb].
  cbn [elementType idName classNames attributes pseudoClasses pseudoElem].
  rewrite <- (join_empty_sep at_).
  rewrite !truthy_decide.
  destruct (decide (e = "")), (decide (i = "")), (decide (pe = "")); subst;
    destruct cl as [|c cl], at_ as [|a at_], pc as [|q pc];
    cbn [length Nat.ltb Nat.leb];
    rewrite <- ?join_prefixed;
    cbv zeta; unfold prefixed, flat; cbn [map fold_right];
    rewrite ?append_nil_l, ?append_nil_r, ?append_assoc;
    rewrite ?append_nil_l, ?append_nil_r; reflexivity.
Qed.

(** ** Method calls on a receiver the store holds *)

Section Receiver.

Variables (h : heap) (this : loc) (o : instance).
Hypothesis Hthis : h !! this = Some o.

Lemma read_ok : read this h = Ok o h.
Proof using Hthis. unfold read. now rewrite Hthis. Qed.

Lemma write_ok (f : instance -> instance) :
  write this f h = Ok tt (<[this := f o]> h).
Proof using Hthis. unfold write. now rewrite Hthis. Qed.

Lemma invoke_ok (c : call) :
  invoke this c h = Ok this (<[this := apply_call c o]> h).
Proof using Hthis.
  destruct c; simpl;
    unfold CssSelectorBuilder.element, CssSelectorBuilder.id,
      CssSelectorBuilder.class, CssSelectorBuilder.attr,
      CssSelectorBuilder.pseudoClass, CssSelectorBuilder.pseudoElement,
      CssSelectorBuilder.combine, bind;
    rewrite ?read_ok, ?write_ok; try reflexivity.
  destruct (truthy (elementType o)); simpl.
  - unfold ret. now rewrite insert_id.
  - now rewrite write_ok.
Qed.

End Receiver.

Lemma clean_ok (h : heap) (this : loc) (o : instance) :
  h !! this = Some o ->
  CssSelectorBuilder.clean this h
  = Ok tt (<[this := CssSelectorBuilder.constructor]> h).
Proof.
  intros Hthis. unfold CssSelectorBuilder.clean, bind.
  rewrite (write_ok h this o Hthis).
  repeat (erewrite write_ok by apply lookup_insert_eq; rewrite insert_insert_eq).
  reflexivity.
Qed.

Lemma stringify_simple (fuel : nat) (h : heap) (this : loc) (o : instance) :
  h !! this = Some o ->
  selector1 o = None ->
  CssSelectorBuilder.stringify (S fuel) this h
  = Ok (CssSelectorBuilder.simple o) (<[this := CssSelectorBuilder.constructor]> h).
Proof.
  intros Hthis Hs1. cbn [CssSelectorBuilder.stringify]. unfold bind at 1.
  rewrite (read_ok h this o Hthis). rewrite Hs1.
  unfold bind, ret. rewrite (clean_ok h this o Hthis). reflexivity.
Qed.

Lemma chain_ok (cs : list call) (h : heap) (this : loc) (o : instance) :
  h !! this = Some o ->
  chain this cs h = Ok this (<[this := run_calls cs o]> h).
Proof.
  revert h o. induction cs as [|c cs IH]; intros h o Hthis.
  - simpl. unfold ret. now rewrite insert_id.
  - cbn [chain]. unfold bind. rewrite (invoke_ok h this o Hthis).
    rewrite (IH _ (apply_call c o)) by apply lookup_insert_eq.
    now rewrite insert_insert_eq.
Qed.

Lemma apply_call_selector1 (c : call) (o : instance) :
  selector1 (apply_call c o) = selector1 o.
Proof. destruct c; simpl; try reflexivity. now destruct (truthy (elementType o)). Qed.

Lemma apply_call_selector2 (c : call) (o : instance) :
  selector2 (apply_call c o) = selector2 o.
Proof. destruct c; simpl; try reflexivity. now destruct (truthy (elementType o)). Qed.

Lemma run_calls_selector1 (cs : list call) (o : instance) :
  selector1 (run_calls cs o) = selector1 o.
Proof.
  revert o. induction cs as [|c cs IH]; intros o; [reflexivity|].
  simpl. rewrite IH. apply apply_call_selector1.
Qed.

(** A chain ended by [stringify], on any receiver that is not a
    combination. *)
Lemma chain_stringify (fuel : nat) (cs : list call) (h : heap) (this : loc)
    (o : instance) :
  h !! this = Some o ->
  selector1 o = None ->
  (let* r := chain this cs in CssSelectorBuilder.stringify (S fuel) r) h
  = Ok (canonical (run_calls cs o)) (<[this := CssSelectorBuilder.constructor]> h).
Proof.
  intros Hthis Hs1. unfold bind. rewrite (chain_ok cs h this o Hthis).
  rewrite (stringify_simple fuel _ this (run_calls cs o)).
  - now rewrite insert_insert_eq, simple_canonical.
  - apply lookup_insert_eq.
  - now rewrite run_calls_selector1.
Qed.

Lemma module_heap_lookup :
  module_heap !! cssSelectorBuilder = Some CssSelectorBuilder.constructor.
Proof. apply lookup_singleton_eq. Qed.

Lemma module_heap_restored :
  <[cssSelectorBuilder := CssSelectorBuilder.constructor]> module_heap = module_heap.
Proof. apply insert_id, module_heap_lookup. Qed.

(** Every completed chain on the exported builder returns, and leaves the
    store as the module's load left it. *)
Lemma render_chain_ok (fuel : nat) (cs : list call) :
  render_chain (S fuel) cs module_heap
  = Ok (canonical (run_calls cs CssSelectorBuilder.constructor)) module_heap.
Proof.
  unfold render_chain.
  rewrite (chain_stringify fuel cs _ _ _ module_heap_lookup eq_refl).
  now rewrite module_heap_restored.
Qed.

(** ** Calls on a reference the store does not hold *)

Lemma invoke_dangling (h : heap) (this : loc) (c : call) :
  h !! this = None -> invoke this c h = Throw TypeError h.
Proof.
  intros Hnone.
  destruct c; simpl;
    unfold CssSelectorBuilder.element, CssSelectorBuilder.id,
      CssSelectorBuilder.class, CssSelectorBuilder.attr,
      CssSelectorBuilder.pseudoClass, CssSelectorBuilder.pseudoElement,
      CssSelectorBuilder.combine, bind, read, write;
    now rewrite Hnone.
Qed.

Lemma stringify_dangling (fuel : nat) (h : heap) (this : loc) :
  h !! this = None ->
  final_heap (CssSelectorBuilder.stringify fuel this h) = h.
Proof.
  intros Hnone. destruct fuel as [|fuel]; [reflexivity|].
  cbn [CssSelectorBuilder.stringify]. unfold bind at 1, read.
  now rewrite Hnone.
Qed.

(** ** No instance ever becomes a combination *)

Lemma no_combination_insert (h : heap) (l : loc) (o : instance) :
  no_combination h ->
  selector1 o = None -> selector2 o = None ->
  no_combination (<[l := o]> h).
Proof.
  intros Hinv H1 H2 l' o'. rewrite lookup_insert.
  case_decide; [|apply Hinv].
  intros [= <-]. now split.
Qed.

Lemma step_no_combination (h h' : heap) :
  no_combination h -> step h h' -> no_combination h'.
Proof.
  intros Hinv Hstep. destruct Hstep as [h|h this c|h this fuel].
  - now apply no_combination_insert.
  - destruct (h !! this) as [o|] eqn:Hthis.
    + rewrite (invoke_ok h this o Hthis). simpl.
      destruct (Hinv _ _ Hthis) as [H1 H2].
      apply no_combination_insert; [assumption| |].
      * now rewrite apply_call_selector1.
      * now rewrite apply_call_selector2.
    + now rewrite invoke_dangling.
  - destruct (h !! this) as [o|] eqn:Hthis.
    + destruct fuel as [|fuel]; [assumption|].
      destruct (Hinv _ _ Hthis) as [H1 H2].
      rewrite (stringify_simple fuel h this o Hthis H1). simpl.
      now apply no_combination_insert.
    + now rewrite stringify_dangling.
Qed.

Lemma module_heap_no_combination : no_combination module_heap.
Proof.
  intros l o. unfold module_heap. rewrite lookup_singleton.
  case_decide; [|discriminate]. intros [= <-]. now split.
Qed.

Lemma reachable_no_combination (h : heap) :
  reachable h -> no_combination h.
Proof.
  unfold reachable. revert h.
  apply (rtc_ind_r no_combination module_heap).
  - apply module_heap_no_combination.
  - intros h1 h2 _ Hstep IH. now apply (step_no_combination h1).
Qed.

(** Read a direct method call as [invoke] of the matching [call]. *)
Ltac as_invoke :=
  repeat match goal with
    | |- context [CssSelectorBuilder.element ?t ?v] =>
        change (CssSelectorBuilder.element t v) with (invoke t (Element v))
    | |- context [CssSelectorBuilder.id ?t ?v] =>
        change (CssSelectorBuilder.id t v) with (invoke t (Id v))
    | |- context [CssSelectorBuilder.class ?t ?v] =>
        change (CssSelectorBuilder.class t v) with (invoke t (Class v))
    | |- context [CssSelectorBuilder.pseudoElement ?t ?v] =>
        change (CssSelectorBuilder.pseudoElement t v)
          with (invoke t (PseudoElement v))
    | |- context [CssSelectorBuilder.combine ?t ?a] =>
        change (CssSelectorBuilder.combine t a) with (invoke t (Combine a))
    end.

(** ** Combination *)

(** [combine] only stores its first argument in [combinator]: on a receiver
    that is not a combination, rendering after [combine(L, op, R)] gives the
    receiver's own simple selector, whatever [L], [op] and [R] are. *)
Lemma render_combined_simple (fuel : nat) (h : heap) (o : instance)
    (L R : loc) (op : string) :
  h !! cssSelectorBuilder = Some o ->
  selector1 o = None ->
  render_combined (S fuel) L op R h
  = Ok (canonical o) (<[cssSelectorBuilder := CssSelectorBuilder.constructor]> h).
Proof.
  intros Hthis Hs1. unfold render_combined, bind. as_invoke.
  rewrite (invoke_ok _ _ _ Hthis (Combine [JRef L; JStr op; JRef R])).
  erewrite stringify_simple; [|apply lookup_insert_eq|exact Hs1].
  rewrite insert_insert_eq, simple_canonical. reflexivity.
Qed.

(** X9.  The branch of [stringify] for a combination does join its two operands
    around the combinator, when [selector1] and [selector2] refer to two
    other simple selectors.  No method of the class puts an instance in that
    state. *)
Lemma stringify_combination (fuel : nat) (h : heap) (this l r : loc)
    (o ol or_ : instance) :
  h !! this = Some o -> selector1 o = Some l -> selector2 o = Some r ->
  l <> this -> r <> this -> l <> r ->
  h !! l = Some ol -> selector1 ol = None ->
  h !! r = Some or_ -> selector1 or_ = None ->
  CssSelectorBuilder.stringify (S (S fuel)) this h
  = Ok (CssSelectorBuilder.simple ol +:+ " " +:+ to_string (combinator o)
        +:+ " " +:+ CssSelectorBuilder.simple or_)
       (<[this := CssSelectorBuilder.constructor]>
          (<[r := CssSelectorBuilder.constructor]>
             (<[l := CssSelectorBuilder.constructor]> h))).
Proof.
  intros Hthis Hs1 Hs2 Hlt Hrt Hlr Hl Hl1 Hr Hr1.
  change (CssSelectorBuilder.stringify (S (S fuel)) this h) with
    ((let* o := read this in
      let* result :=
        match selector1 o with
        | Some s1 =>
            let* r1 := CssSelectorBuilder.stringify (S fuel) s1 in
            let* o := read this in
            let* o' := read this in
            match selector2 o' with
            | Some s2 =>
                let* r2 := CssSelectorBuilder.stringify (S fuel) s2 in
                ret ((("" +:+ r1) +:+ " " +:+ to_string (combinator o) +:+ " ")
                     +:+ r2)
            | None => throw TypeError
            end
        | None => ret ("" +:+ CssSelectorBuilder.simple o)
        end in
      CssSelectorBuilder.clean this;; ret result) h).
  unfold bind at 1. rewrite (read_ok h this o Hthis), Hs1.
  unfold bind at 1. unfold bind at 1.
  rewrite (stringify_simple fuel h l ol Hl Hl1).
  assert (Hthis1 : <[l := CssSelectorBuilder.constructor]> h !! this = Some o)
    by now rewrite lookup_insert_ne.
  unfold bind at 1. rewrite (read_ok _ this o Hthis1).
  unfold bind at 1. rewrite (read_ok _ this o Hthis1), Hs2.
  assert (Hr' : <[l := CssSelectorBuilder.constructor]> h !! r = Some or_)
    by now rewrite lookup_insert_ne.
  unfold bind at 1. rewrite (stringify_simple fuel _ r or_ Hr' Hr1).
  unfold ret at 1.
  assert (Hthis2 : <[r := CssSelectorBuilder.constructor]>
                     (<[l := CssSelectorBuilder.constructor]> h) !! this = Some o)
    by now rewrite lookup_insert_ne.
  unfold bind. rewrite (clean_ok _ this o Hthis2). unfold ret.
  now rewrite append_nil_l, !append_assoc.
Qed.

Example stringify_combination_example :
  CssSelectorBuilder.stringify 2 1%positive
    (<[1%positive := mkInstance "" "" [] [] [] "" (Some 2%positive)
                       (Some 3%positive) (JStr "+")]>
       (<[2%positive := mkInstance "div" "" [] [] [] "" None None (JStr "")]>
          (<[3%positive := mkInstance "span" "" [] [] [] "" None None (JStr "")]>
             ∅)))
  = Ok "div + span"
       (<[1%positive := CssSelectorBuilder.constructor]>
          (<[2%positive := CssSelectorBuilder.constructor]>
             (<[3%positive := CssSelectorBuilder.constructor]> ∅))).
Proof. vm_compute. reflexivity. Qed.

(** C1 (the code departs from the claim).  The claim: rendering
    [combine(L, op, R)] yields [render(L) + " " + op + " " + render(R)], and
    [combine(combine(element('div'), '+', element('span')), '>',
    element('p'))] renders ["div + span > p"].  The code: that expression,
    built through the exported builder, renders ["div"]: the three [element]
    calls reach the one shared instance, of which the first sets the element
    type and the others are ignored, and [combine] stores its first argument
    and links no operand. *)
Theorem C1_combine_renders_div (fuel : nat) :
  div_plus_span_gt_p (S fuel) module_heap = Ok "div" module_heap.
Proof.
  unfold div_plus_span_gt_p, bind.
  cbv zeta. as_invoke.
  rewrite (invoke_ok _ _ _ module_heap_lookup).
  do 4 (as_invoke; erewrite invoke_ok by apply lookup_insert_eq).
  erewrite stringify_simple; [|apply lookup_insert_eq|reflexivity].
  rewrite !insert_insert_eq. rewrite module_heap_restored. reflexivity.
Qed.

(** ** Setting a part twice *)

(** The claim of C2 fails on the code: a second [element], a second [id] and
    a second [pseudoElement] on the same accumulation all return; none
    throws. *)
Lemma C2_second_call_does_not_throw :
  ~ throws (chain cssSelectorBuilder [Element "div"; Element "span"] module_heap)
  /\ ~ throws (chain cssSelectorBuilder [Id "main"; Id "other"] module_heap)
  /\ ~ throws (chain cssSelectorBuilder
                 [PseudoElement "before"; PseudoElement "after"] module_heap).
Proof.
  rewrite !(chain_ok _ _ _ _ module_heap_lookup). simpl. tauto.
Qed.

(** C2 (amended).  A second invocation of [element], of [id] or of
    [pseudoElement] on the same accumulation does not fail: the builder
    raises no error of its own.  Each of the two calls returns its
    receiver, and a second [element] after a first one with a non-empty
    name changes nothing. *)
Theorem C2_second_call_returns (h : heap) (this : loc) (o : instance)
    (v1 v2 : string) :
  h !! this = Some o ->
  (exists h1 h2,
      CssSelectorBuilder.element this v1 h = Ok this h1
      /\ CssSelectorBuilder.element this v2 h1 = Ok this h2
      /\ (v1 <> "" -> h2 = h1))
  /\ (exists h1 h2,
      CssSelectorBuilder.id this v1 h = Ok this h1
      /\ CssSelectorBuilder.id this v2 h1 = Ok this h2)
  /\ (exists h1 h2,
      CssSelectorBuilder.pseudoElement this v1 h = Ok this h1
      /\ CssSelectorBuilder.pseudoElement this v2 h1 = Ok this h2).
Proof.
  intros Hthis. repeat split.
  - eexists _, _. as_invoke. rewrite (invoke_ok _ _ _ Hthis).
    split; [reflexivity|].
    rewrite (invoke_ok _ this (apply_call (Element v1) o))
      by apply lookup_insert_eq.
    split; [reflexivity|].
    intros Hv1. rewrite insert_insert_eq. f_equal.
    simpl. rewrite !truthy_decide.
    destruct (decide (elementType o = "")) as [E|E]; simpl.
    + now rewrite decide_False.
    + now rewrite decide_False.
  - eexists _, _. as_invoke. rewrite (invoke_ok _ _ _ Hthis).
    split; [reflexivity|].
    now rewrite (invoke_ok _ this (apply_call (Id v1) o))
      by apply lookup_insert_eq.
  - eexists _, _. as_invoke. rewrite (invoke_ok _ _ _ Hthis).
    split; [reflexivity|].
    now rewrite (invoke_ok _ this (apply_call (PseudoElement v1) o))
      by apply lookup_insert_eq.
Qed.

Lemma C2_second_call_returns_witness :
  module_heap !! cssSelectorBuilder = Some CssSelectorBuilder.constructor
  /\ ((exists h1 h2,
      CssSelectorBuilder.element cssSelectorBuilder "div" module_heap
        = Ok cssSelectorBuilder h1
      /\ CssSelectorBuilder.element cssSelectorBuilder "span" h1
        = Ok cssSelectorBuilder h2
      /\ ("div" <> "" -> h2 = h1))
  /\ (exists h1 h2,
      CssSelectorBuilder.id cssSelectorBuilder "div" module_heap
        = Ok cssSelectorBuilder h1
      /\ CssSelectorBuilder.id cssSelectorBuilder "span" h1
        = Ok cssSelectorBuilder h2)
  /\ (exists h1 h2,
      CssSelectorBuilder.pseudoElement cssSelectorBuilder "div" module_heap
        = Ok cssSelectorBuilder h1
      /\ CssSelectorBuilder.pseudoElement cssSelectorBuilder "span" h1
        = Ok cssSelectorBuilder h2)).
Proof.
  split; [reflexivity|].
  apply (C2_second_call_returns module_heap cssSelectorBuilder
           CssSelectorBuilder.constructor "div" "span").
  reflexivity.
Defined.

(** ** Each property depends on the calls of one kind only *)

Section PerKind.

Context {A : Type}.
Variables (field : instance -> A) (k : kind) (upd : call -> A -> A).
Hypothesis Hown :
  forall c o, kind_of c = k -> field (apply_call c o) = upd c (field o).
Hypothesis Hother :
  forall c o, kind_of c <> k -> field (apply_call c o) = field o.

Lemma field_of_run_calls (cs : list call) (o : instance) :
  field (run_calls cs o)
  = fold_left (fun a c => upd c a) (calls_of k cs) (field o).
Proof using Hown Hother.
  revert o. induction cs as [|c cs IH]; intros o; [reflexivity|].
  unfold calls_of. rewrite filter_cons. cbn [run_calls fold_left].
  fold (run_calls cs (apply_call c o)). rewrite IH.
  case_decide as Hk.
  - cbn [fold_left]. now rewrite Hown.
  - now rewrite Hother.
Qed.

Lemma field_same_calls (cs1 cs2 : list call) (o : instance) :
  same_calls_per_kind cs1 cs2 ->
  field (run_calls cs1 o) = field (run_calls cs2 o).
Proof using Hown Hother.
  intros Hsame. rewrite !field_of_run_calls. now rewrite (Hsame k).
Qed.

End PerKind.

Ltac per_kind_cases :=
  let c := fresh "c" in
  let x := fresh "x" in
  intros c x ?; destruct c; simpl in *;
  try congruence; try reflexivity;
  destruct (truthy (elementType x)); reflexivity.

Lemma run_calls_selector2 (cs : list call) (o : instance) :
  selector2 (run_calls cs o) = selector2 o.
Proof.
  revert o. induction cs as [|c cs IH]; intros o; [reflexivity|].
  simpl. rewrite IH. apply apply_call_selector2.
Qed.

(** Two chains that agree kind by kind build the same instance. *)
Lemma run_calls_same_calls (cs1 cs2 : list call) (o : instance) :
  same_calls_per_kind cs1 cs2 -> run_calls cs1 o = run_calls cs2 o.
Proof.
  intros Hsame.
  assert (He : elementType (run_calls cs1 o) = elementType (run_calls cs2 o)).
  { apply (field_same_calls elementType KElement
             (fun c e => match c with
                         | Element v => if truthy e then e else v
                         | _ => e
                         end)); [per_kind_cases | per_kind_cases | exact Hsame]. }
  assert (Hi : idName (run_calls cs1 o) = idName (run_calls cs2 o)).
  { apply (field_same_calls idName KId
             (fun c a => match c with Id v => v | _ => a end));
      [per_kind_cases | per_kind_cases | exact Hsame]. }
  assert (Hc : classNames (run_calls cs1 o) = classNames (run_calls cs2 o)).
  { apply (field_same_calls classNames KClass
             (fun c a => match c with Class v => a ++ [v] | _ => a end));
      [per_kind_cases | per_kind_cases | exact Hsame]. }
  assert (Ha : attributes (run_calls cs1 o) = attributes (run_calls cs2 o)).
  { apply (field_same_calls attributes KAttr
             (fun c a => match c with Attr v => a ++ [v] | _ => a end));
      [per_kind_cases | per_kind_cases | exact Hsame]. }
  assert (Hp : pseudoClasses (run_calls cs1 o) = pseudoClasses (run_calls cs2 o)).
  { apply (field_same_calls pseudoClasses KPseudoClass
             (fun c a => match c with PseudoClass v => a ++ [v] | _ => a end));
      [per_kind_cases | per_kind_cases | exact Hsame]. }
  assert (Hq : pseudoElem (run_calls cs1 o) = pseudoElem (run_calls cs2 o)).
  { apply (field_same_calls pseudoElem KPseudoElement
             (fun c a => match c with PseudoElement v => v | _ => a end));
      [per_kind_cases | per_kind_cases | exact Hsame]. }
  assert (Hb : combinator (run_calls cs1 o) = combinator (run_calls cs2 o)).
  { apply (field_same_calls combinator KCombine
             (fun c a => match c with
                         | Combine args => nth 0 args JUndefined
                         | _ => a
                         end)); [per_kind_cases | per_kind_cases | exact Hsame]. }
  pose proof (run_calls_selector1 cs1 o) as H1.
  pose proof (run_calls_selector1 cs2 o) as H1'.
  pose proof (run_calls_selector2 cs1 o) as H2.
  pose proof (run_calls_selector2 cs2 o) as H2'.
  destruct (run_calls cs1 o), (run_calls cs2 o); simpl in *. congruence.
Qed.

(** ** The canonical order *)

(** C3.  A simple selector renders as its groups in the order element type,
    ['#'+id], the classes each after a ['.'], the attribute group in
    brackets, the pseudo-classes each after a [':'], ['::'+pseudoElement],
    with nothing between the groups, and the order in which the building
    calls were made plays no part: a chain that makes the same calls of each
    kind in another interleaving renders the same string. *)
Theorem C3_canonical_order (fuel : nat) (cs1 cs2 : list call) (h : heap)
    (this : loc) (o : instance) :
  h !! this = Some o ->
  selector1 o = None ->
  same_calls_per_kind cs1 cs2 ->
  let built := run_calls cs1 o in
  final_heap (chain this cs1 h) !! this = Some built
  /\ (let* r := chain this cs1 in CssSelectorBuilder.stringify (S fuel) r) h
     = Ok (element_group built +:+ id_group built +:+ class_group built
           +:+ attribute_group built +:+ pseudoClass_group built
           +:+ pseudoElement_group built)
          (<[this := CssSelectorBuilder.constructor]> h)
  /\ (let* r := chain this cs2 in CssSelectorBuilder.stringify (S fuel) r) h
     = (let* r := chain this cs1 in CssSelectorBuilder.stringify (S fuel) r) h.
Proof.
  intros Hthis Hs1 Hsame built. split; [|split].
  - rewrite (chain_ok cs1 h this o Hthis). apply lookup_insert_eq.
  - apply (chain_stringify fuel cs1 h this o Hthis Hs1).
  - rewrite !(chain_stringify fuel _ h this o Hthis Hs1).
    now rewrite (run_calls_same_calls cs1 cs2 o Hsame).
Qed.

Lemma C3_canonical_order_witness :
  same_calls_per_kind
    [Element "a"; Id "b"; Class "c"; Attr "d"; PseudoClass "e"; PseudoElement "f"]
    [PseudoElement "f"; PseudoClass "e"; Attr "d"; Class "c"; Id "b"; Element "a"]
  /\ (let* r := chain cssSelectorBuilder
                  [PseudoElement "f"; PseudoClass "e"; Attr "d"; Class "c";
                   Id "b"; Element "a"] in
      CssSelectorBuilder.stringify 1 r) module_heap
     = (let* r := chain cssSelectorBuilder
                    [Element "a"; Id "b"; Class "c"; Attr "d"; PseudoClass "e";
                     PseudoElement "f"] in
        CssSelectorBuilder.stringify 1 r) module_heap.
Proof.
  assert (Hsame : same_calls_per_kind
    [Element "a"; Id "b"; Class "c"; Attr "d"; PseudoClass "e"; PseudoElement "f"]
    [PseudoElement "f"; PseudoClass "e"; Attr "d"; Class "c"; Id "b"; Element "a"])
    by (intros []; reflexivity).
  split; [exact Hsame|].
  apply (C3_canonical_order 0 _ _ module_heap cssSelectorBuilder
           CssSelectorBuilder.constructor eq_refl eq_refl Hsame).
Defined.

(** The first example of the class's doc comment. *)
Example doc_example_id_classes :
  render_chain 1 [Id "main"; Class "container"; Class "editable"] module_heap
  = Ok "#main.container.editable" module_heap.
Proof. vm_compute. reflexivity. Qed.

Example canonical_order_example :
  render_chain 1 [PseudoElement "f"; PseudoClass "e"; Attr "d"; Class "c";
                  Id "b"; Element "a"] module_heap
  = Ok "a#b.c[d]:e::f" module_heap.
Proof. vm_compute. reflexivity. Qed.

(** ** Attributes *)

(** C4.  With two or more attributes the selector renders one bracket pair
    that holds all the attribute expressions one after the other, nothing
    between them. *)
Theorem C4_attributes_one_bracket_pair (fuel : nat) (h : heap) (this : loc)
    (o : instance) (a1 a2 : string) (more : list string) :
  h !! this = Some o ->
  selector1 o = None ->
  attributes o = a1 :: a2 :: more ->
  CssSelectorBuilder.stringify (S fuel) this h
  = Ok (element_group o +:+ id_group o +:+ class_group o
        +:+ ("[" +:+ a1 +:+ a2 +:+ flat more +:+ "]")
        +:+ pseudoClass_group o +:+ pseudoElement_group o)
       (<[this := CssSelectorBuilder.constructor]> h).
Proof.
  intros Hthis Hs1 Hattrs.
  rewrite (stringify_simple fuel h this o Hthis Hs1), simple_canonical.
  unfold canonical, attribute_group. rewrite Hattrs.
  unfold flat. cbn [fold_right]. now rewrite !append_assoc.
Qed.

Lemma C4_attributes_one_bracket_pair_witness :
  final_heap (chain cssSelectorBuilder [Attr "a=1"; Attr "b=2"] module_heap)
    !! cssSelectorBuilder
  = Some (run_calls [Attr "a=1"; Attr "b=2"] CssSelectorBuilder.constructor)
  /\ CssSelectorBuilder.stringify 1 cssSelectorBuilder
       (final_heap (chain cssSelectorBuilder [Attr "a=1"; Attr "b=2"] module_heap))
     = Ok "[a=1b=2]"
          (<[cssSelectorBuilder := CssSelectorBuilder.constructor]>
             (final_heap
                (chain cssSelectorBuilder [Attr "a=1"; Attr "b=2"] module_heap))).
Proof.
  split; [reflexivity|].
  apply (C4_attributes_one_bracket_pair 0 _ cssSelectorBuilder
           (run_calls [Attr "a=1"; Attr "b=2"] CssSelectorBuilder.constructor)
           "a=1" "b=2" []); reflexivity.
Defined.

(** ** Classes *)

(** C8.  [class] appends: after [class(x).class(y)] the classes are the
    earlier ones followed by [x] and [y], and the selector renders them in
    that order, each after a ['.'], so that the two calls contribute
    ['.'+x+'.'+y]. *)
Theorem C8_classes_in_insertion_order (fuel : nat) (h : heap) (this : loc)
    (o : instance) (x y : string) :
  h !! this = Some o ->
  selector1 o = None ->
  exists h',
    chain this [Class x; Class y] h = Ok this h'
    /\ classNames <$> h' !! this = Some (classNames o ++ [x; y])
    /\ CssSelectorBuilder.stringify (S fuel) this h'
       = Ok (element_group o +:+ id_group o
             +:+ (class_group o +:+ "." +:+ x +:+ "." +:+ y)
             +:+ attribute_group o +:+ pseudoClass_group o
             +:+ pseudoElement_group o)
            (<[this := CssSelectorBuilder.constructor]> h).
Proof.
  intros Hthis Hs1. eexists. split; [apply (chain_ok _ h this o Hthis)|].
  split.
  - rewrite lookup_insert_eq. simpl. now rewrite <- app_assoc.
  - erewrite stringify_simple; [|apply lookup_insert_eq|exact Hs1].
    rewrite insert_insert_eq, simple_canonical. f_equal.
    unfold canonical, element_group, id_group, class_group, attribute_group,
      pseudoClass_group, pseudoElement_group, prefixed, flat. simpl.
    rewrite <- app_assoc, map_app, fold_right_app. simpl.
    rewrite !append_nil_r. do 2 f_equal.
    rewrite <- !append_assoc. f_equal.
    generalize (classNames o). intros l.
    induction l as [|c l IH]; simpl.
    + now rewrite !append_assoc.
    + rewrite !append_assoc. f_equal. f_equal.
      rewrite <- !append_assoc. exact IH.
Qed.

Lemma C8_classes_in_insertion_order_witness :
  module_heap !! cssSelectorBuilder = Some CssSelectorBuilder.constructor
  /\ exists h',
    chain cssSelectorBuilder [Class "x"; Class "y"] module_heap
    = Ok cssSelectorBuilder h'
    /\ classNames <$> h' !! cssSelectorBuilder = Some ["x"; "y"]
    /\ CssSelectorBuilder.stringify 1 cssSelectorBuilder h'
       = Ok ".x.y"
            (<[cssSelectorBuilder := CssSelectorBuilder.constructor]> module_heap).
Proof.
  split; [reflexivity|].
  apply (C8_classes_in_insertion_order 0 module_heap cssSelectorBuilder
           CssSelectorBuilder.constructor "x" "y"); reflexivity.
Defined.

(** ** Element type and id *)

(** C7.  [element('a').id('b')] and [id('b').element('a')] both render
    ["a#b"]; the two calls commute on every receiver. *)
Theorem C7_element_id_commute :
  (forall fuel,
      render_chain (S fuel) [Element "a"; Id "b"] module_heap
      = Ok "a#b" module_heap)
  /\ (forall fuel,
      render_chain (S fuel) [Id "b"; Element "a"] module_heap
      = Ok "a#b" module_heap)
  /\ (forall (h : heap) (this : loc) (a b : string),
      chain this [Element a; Id b] h = chain this [Id b; Element a] h).
Proof.
  split; [|split].
  - intros fuel. now rewrite render_chain_ok.
  - intros fuel. now rewrite render_chain_ok.
  - intros h this a b. destruct (h !! this) as [o|] eqn:Hthis.
    + rewrite !(chain_ok _ h this o Hthis). do 2 f_equal.
      simpl. now destruct (truthy (elementType o)).
    + cbn [chain]. unfold bind. now rewrite !invoke_dangling.
Qed.

(** ** Reset after rendering *)

(** C6.  [stringify] returns and leaves its receiver with every part of the
    simple selector empty: no element type, no id, no classes, no
    attributes, no pseudo-classes, no pseudo-element.  A chain built on the
    same instance afterwards renders what it renders on a newly created
    builder, so it inherits nothing. *)
Theorem C6_render_resets (fuel : nat) (h : heap) (this : loc) (o : instance) :
  h !! this = Some o ->
  selector1 o = None ->
  exists s h' o',
    CssSelectorBuilder.stringify (S fuel) this h = Ok s h'
    /\ h' !! this = Some o'
    /\ elementType o' = "" /\ idName o' = "" /\ classNames o' = []
    /\ attributes o' = [] /\ pseudoClasses o' = [] /\ pseudoElem o' = ""
    /\ forall cs fuel', exists s',
        output ((let* r := chain this cs in
                 CssSelectorBuilder.stringify (S fuel') r) h') = Some s'
        /\ output (render_chain (S fuel') cs module_heap) = Some s'.
Proof.
  intros Hthis Hs1.
  exists (CssSelectorBuilder.simple o),
         (<[this := CssSelectorBuilder.constructor]> h),
         CssSelectorBuilder.constructor.
  split; [apply (stringify_simple fuel h this o Hthis Hs1)|].
  split; [apply lookup_insert_eq|].
  do 6 (split; [reflexivity|]).
  intros cs fuel'.
  exists (canonical (run_calls cs CssSelectorBuilder.constructor)). split.
  - erewrite chain_stringify; [reflexivity|apply lookup_insert_eq|reflexivity].
  - now rewrite render_chain_ok.
Qed.

Lemma C6_render_resets_witness :
  ({[ cssSelectorBuilder :=
        run_calls [Class "x"; Attr "a=1"] CssSelectorBuilder.constructor ]} : heap)
    !! cssSelectorBuilder
  = Some (run_calls [Class "x"; Attr "a=1"] CssSelectorBuilder.constructor)
  /\ exists s h' o',
    CssSelectorBuilder.stringify 1 cssSelectorBuilder
      {[ cssSelectorBuilder :=
           run_calls [Class "x"; Attr "a=1"] CssSelectorBuilder.constructor ]}
    = Ok s h'
    /\ h' !! cssSelectorBuilder = Some o'
    /\ elementType o' = "" /\ idName o' = "" /\ classNames o' = []
    /\ attributes o' = [] /\ pseudoClasses o' = [] /\ pseudoElem o' = ""
    /\ forall cs fuel', exists s',
        output ((let* r := chain cssSelectorBuilder cs in
                 CssSelectorBuilder.stringify (S fuel') r) h') = Some s'
        /\ output (render_chain (S fuel') cs module_heap) = Some s'.
Proof.
  split; [reflexivity|].
  apply (C6_render_resets 0 _ cssSelectorBuilder
           (run_calls [Class "x"; Attr "a=1"] CssSelectorBuilder.constructor));
    reflexivity.
Defined.

(** ** One shared instance *)

(** C5 (the code departs from the claim).  The claim: chains started
    through the exported builder share no state, each entry operation makes
    a new selector.  The code: chain A calls [class('x')], chain B calls
    [class('y')], and only then are A and B rendered.  Both chains hold the
    exported instance itself, no new selector; A renders [".x.y"] and B
    renders the empty string, where on their own A renders [".x"] and B
    renders [".y"]. *)
Lemma C5_interleaved_chains_interfere :
  interleaved 1 [Class "x"] [Class "y"] module_heap
  = Ok (cssSelectorBuilder, cssSelectorBuilder, ".x.y", "") module_heap
  /\ render_chain 1 [Class "x"] module_heap = Ok ".x" module_heap
  /\ render_chain 1 [Class "y"] module_heap = Ok ".y" module_heap
  /\ ~ chains_isolated 1 [Class "x"] [Class "y"].
Proof.
  repeat split; try (vm_compute; reflexivity).
  intros (a & b & sa & sb & h' & Hrun & HA & HB).
  vm_compute in Hrun, HA. congruence.
Qed.

(** X15.  Chains on the exported builder that do not overlap are
    independent: every call of a chain returns the exported instance and
    creates none, and a chain that is rendered before the next one starts
    renders what it renders on its own, and so does the next one, in either
    order. *)
Theorem sequential_chains_independent (fuel : nat) (csA csB : list call) :
  (exists h',
      chain cssSelectorBuilder csA module_heap = Ok cssSelectorBuilder h'
      /\ dom h' = dom module_heap)
  /\ exists sa sb,
      render_chain (S fuel) csA module_heap = Ok sa module_heap
      /\ render_chain (S fuel) csB module_heap = Ok sb module_heap
      /\ sequential (S fuel) csA csB module_heap = Ok (sa, sb) module_heap
      /\ sequential (S fuel) csB csA module_heap = Ok (sb, sa) module_heap.
Proof.
  split.
  - eexists. split; [apply (chain_ok csA _ _ _ module_heap_lookup)|].
    rewrite dom_insert_L. unfold module_heap. rewrite dom_singleton_L.
    set_solver.
  - exists (canonical (run_calls csA CssSelectorBuilder.constructor)),
           (canonical (run_calls csB CssSelectorBuilder.constructor)).
    unfold sequential, bind. now rewrite !render_chain_ok.
Qed.

(** ** The combination properties stay [null] *)

(** C9.  In every store a client can reach from the module's load, by
    creating instances and calling [element], [id], [class], [attr],
    [pseudoClass], [pseudoElement], [combine] and [stringify] on any
    reference, [selector1] and [selector2] of every instance are [null];
    [stringify] therefore takes the simple-selector branch and returns its
    string. *)
Theorem C9_selectors_stay_null (h : heap) :
  reachable h ->
  forall (this : loc) (o : instance),
    h !! this = Some o ->
    selector1 o = None /\ selector2 o = None
    /\ forall fuel,
        CssSelectorBuilder.stringify (S fuel) this h
        = Ok (CssSelectorBuilder.simple o)
             (<[this := CssSelectorBuilder.constructor]> h).
Proof.
  intros Hreach this o Hthis.
  destruct (reachable_no_combination h Hreach this o Hthis) as [H1 H2].
  repeat split; try assumption.
  intros fuel. apply (stringify_simple fuel h this o Hthis H1).
Qed.

Lemma C9_selectors_stay_null_witness :
  reachable
    (final_heap
       (invoke cssSelectorBuilder
          (Combine [JRef cssSelectorBuilder; JStr "+"; JRef cssSelectorBuilder])
          module_heap))
  /\ forall (this : loc) (o : instance),
    final_heap
      (invoke cssSelectorBuilder
         (Combine [JRef cssSelectorBuilder; JStr "+"; JRef cssSelectorBuilder])
         module_heap) !! this = Some o ->
    selector1 o = None /\ selector2 o = None
    /\ forall fuel,
        CssSelectorBuilder.stringify (S fuel) this
          (final_heap
             (invoke cssSelectorBuilder
                (Combine [JRef cssSelectorBuilder; JStr "+"; JRef cssSelectorBuilder])
                module_heap))
        = Ok (CssSelectorBuilder.simple o)
             (<[this := CssSelectorBuilder.constructor]>
                (final_heap
                   (invoke cssSelectorBuilder
                      (Combine [JRef cssSelectorBuilder; JStr "+";
                                JRef cssSelectorBuilder])
                      module_heap))).
Proof.
  assert (Hreach : reachable
    (final_heap
       (invoke cssSelectorBuilder
          (Combine [JRef cssSelectorBuilder; JStr "+"; JRef cssSelectorBuilder])
          module_heap))).
  { eapply rtc_l; [apply step_call | apply rtc_refl]. }
  split; [exact Hreach|].
  apply (C9_selectors_stay_null _ Hreach).
Defined.

(** * Further properties of the builder *)

(** ** How calls of one kind compose *)

(** X1.  [id] and [pseudoElement] assign unconditionally: of two calls in a
    row the second replaces the first, so the pair acts as the second call
    alone. *)
Theorem id_pseudoElement_last_wins (h : heap) (this : loc) (v1 v2 : string) :
  chain this [Id v1; Id v2] h = chain this [Id v2] h
  /\ chain this [PseudoElement v1; PseudoElement v2] h
     = chain this [PseudoElement v2] h.
Proof.
  destruct (h !! this) as [o|] eqn:Hthis.
  - rewrite !(chain_ok _ h this o Hthis). split; reflexivity.
  - cbn [chain]. unfold bind. rewrite !invoke_dangling by assumption.
    split; reflexivity.
Qed.

(** X2.  [element] keeps the first non-empty name: two calls in a row act as
    one call with the first name when that is non-empty, and with the second
    name when the first is the empty string, which leaves the element type
    unset. *)
Theorem element_first_non_empty_wins (h : heap) (this : loc) (v1 v2 : string) :
  chain this [Element v1; Element v2] h
  = chain this [Element (if truthy v1 then v1 else v2)] h.
Proof.
  destruct (h !! this) as [o|] eqn:Hthis.
  - rewrite !(chain_ok _ h this o Hthis). do 2 f_equal.
    cbn [run_calls fold_left apply_call].
    destruct (truthy (elementType o)) eqn:Ho; [now rewrite Ho|].
    cbn [elementType set_elementType].
    destruct (truthy v1); reflexivity.
  - cbn [chain]. unfold bind. now rewrite !invoke_dangling.
Qed.

Lemma apply_call_elementType_set (c : call) (o : instance) :
  elementType o <> "" -> elementType (apply_call c o) = elementType o.
Proof.
  intros Hset. destruct c; try reflexivity.
  cbn [apply_call]. apply truthy_true in Hset. now rewrite Hset.
Qed.

(** X3.  Once the element type is a non-empty string no chain of building
    calls changes it. *)
Theorem element_type_sticks (cs : list call) (h : heap) (this : loc)
    (o : instance) :
  h !! this = Some o ->
  elementType o <> "" ->
  exists o',
    final_heap (chain this cs h) !! this = Some o'
    /\ elementType o' = elementType o.
Proof.
  intros Hthis Hset. exists (run_calls cs o). split.
  - rewrite (chain_ok cs h this o Hthis). apply lookup_insert_eq.
  - clear Hthis. revert o Hset.
    induction cs as [|c cs IH]; intros o Hset; [reflexivity|].
    cbn [run_calls fold_left]. fold (run_calls cs (apply_call c o)).
    rewrite IH; rewrite apply_call_elementType_set; auto.
Qed.

Lemma element_type_sticks_witness :
  ({[ cssSelectorBuilder := set_elementType "div" CssSelectorBuilder.constructor ]}
     : heap) !! cssSelectorBuilder
  = Some (set_elementType "div" CssSelectorBuilder.constructor)
  /\ elementType (set_elementType "div" CssSelectorBuilder.constructor) <> ""
  /\ exists o',
    final_heap
      (chain cssSelectorBuilder [Element "span"; Id "x"; Element "p"]
         {[ cssSelectorBuilder :=
              set_elementType "div" CssSelectorBuilder.constructor ]})
      !! cssSelectorBuilder = Some o'
    /\ elementType o'
       = elementType (set_elementType "div" CssSelectorBuilder.constructor).
Proof.
  split; [reflexivity|]. split; [discriminate|].
  apply (element_type_sticks [Element "span"; Id "x"; Element "p"]
           _ cssSelectorBuilder
           (set_elementType "div" CssSelectorBuilder.constructor));
    [reflexivity|discriminate].
Defined.

(** X4.  [class], [attr] and [pseudoClass] only append: after any chain of
    building calls the three lists are what they were, followed by the
    arguments of the chain's calls of that kind in call order.  Nothing is
    removed, reordered or deduplicated. *)
Theorem lists_grow_in_call_order (cs : list call) (h : heap) (this : loc)
    (o : instance) :
  h !! this = Some o ->
  exists o',
    final_heap (chain this cs h) !! this = Some o'
    /\ classNames o' = classNames o ++ class_values cs
    /\ attributes o' = attributes o ++ attr_values cs
    /\ pseudoClasses o' = pseudoClasses o ++ pseudoClass_values cs.
Proof.
  intros Hthis. exists (run_calls cs o). split.
  - rewrite (chain_ok cs h this o Hthis). apply lookup_insert_eq.
  - clear Hthis. revert o.
    induction cs as [|c cs IH]; intros o.
    + cbn. now rewrite !app_nil_r.
    + cbn [run_calls fold_left]. fold (run_calls cs (apply_call c o)).
      destruct (IH (apply_call c o)) as (Hc & Ha & Hp).
      rewrite Hc, Ha, Hp. unfold class_values, attr_values, pseudoClass_values.
      destruct c; cbn [apply_call omap list_omap];
        try (destruct (truthy (elementType o)));
        cbn [classNames attributes pseudoClasses set_elementType set_idName
             set_classNames set_attributes set_pseudoClasses set_pseudoElem
             set_combinator];
        rewrite <- ?app_assoc; repeat split; reflexivity.
Qed.

Lemma lists_grow_in_call_order_witness :
  ({[ cssSelectorBuilder := set_classNames ["b"; "a"] CssSelectorBuilder.constructor ]}
     : heap) !! cssSelectorBuilder
  = Some (set_classNames ["b"; "a"] CssSelectorBuilder.constructor)
  /\ exists o',
    final_heap
      (chain cssSelectorBuilder
         [Class "a"; Attr "x"; PseudoClass "p"; Class "a"; Attr "w"]
         {[ cssSelectorBuilder :=
              set_classNames ["b"; "a"] CssSelectorBuilder.constructor ]})
      !! cssSelectorBuilder = Some o'
    /\ classNames o' = ["b"; "a"; "a"; "a"]
    /\ attributes o' = ["x"; "w"]
    /\ pseudoClasses o' = ["p"].
Proof.
  split; [reflexivity|].
  apply (lists_grow_in_call_order
           [Class "a"; Attr "x"; PseudoClass "p"; Class "a"; Attr "w"]
           _ cssSelectorBuilder
           (set_classNames ["b"; "a"] CssSelectorBuilder.constructor)).
  reflexivity.
Defined.

(** ** [combine] and the rendered string *)

(** [combinator] is read by the combination branch of [stringify] only, and
    by no building call. *)
Lemma apply_call_modulo_combinator (c : call) (o1 o2 : instance) (v : jsval) :
  set_combinator v o1 = set_combinator v o2 ->
  set_combinator v (apply_call c o1) = set_combinator v (apply_call c o2).
Proof.
  destruct o1, o2. unfold set_combinator. cbn. intros [= -> -> -> -> -> -> -> ->].
  destruct c; cbn; try reflexivity.
  now destruct (truthy _).
Qed.

Lemma run_calls_without_combine (cs : list call) (o1 o2 : instance) (v : jsval) :
  set_combinator v o1 = set_combinator v o2 ->
  set_combinator v (run_calls cs o1)
  = set_combinator v (run_calls (without_combine cs) o2).
Proof.
  revert o1 o2. induction cs as [|c cs IH]; intros o1 o2 Heq; [exact Heq|].
  unfold without_combine. rewrite filter_cons.
  cbn [run_calls fold_left]. fold (run_calls cs (apply_call c o1)).
  case_decide as Hk.
  - cbn [fold_left]. apply IH. now apply apply_call_modulo_combinator.
  - destruct c;
      try (exfalso; first [discriminate Hk | apply Hk; discriminate]).
    apply IH. rewrite <- Heq. reflexivity.
Qed.

Lemma canonical_set_combinator (v : jsval) (o : instance) :
  canonical (set_combinator v o) = canonical o.
Proof. reflexivity. Qed.

(** X5.  [combine] leaves no trace in the rendered string: on a receiver
    that is not a combination, a chain and the same chain with every
    [combine] call removed render the same string, whatever the arguments
    of [combine] were. *)
Theorem combine_never_rendered (fuel : nat) (cs : list call) (h : heap)
    (this : loc) (o : instance) :
  h !! this = Some o ->
  selector1 o = None ->
  exists s,
    (let* r := chain this cs in CssSelectorBuilder.stringify (S fuel) r) h
    = Ok s (<[this := CssSelectorBuilder.constructor]> h)
    /\ (let* r := chain this (without_combine cs) in
        CssSelectorBuilder.stringify (S fuel) r) h
       = Ok s (<[this := CssSelectorBuilder.constructor]> h).
Proof.
  intros Hthis Hs1. exists (canonical (run_calls cs o)).
  rewrite !(chain_stringify fuel _ h this o Hthis Hs1). split; [reflexivity|].
  rewrite <- (canonical_set_combinator JUndefined (run_calls (without_combine cs) o)).
  rewrite <- (run_calls_without_combine cs o o JUndefined eq_refl).
  now rewrite canonical_set_combinator.
Qed.

Lemma combine_never_rendered_witness :
  module_heap !! cssSelectorBuilder = Some CssSelectorBuilder.constructor
  /\ selector1 CssSelectorBuilder.constructor = None
  /\ exists s,
    (let* r := chain cssSelectorBuilder
                 [Element "div"; Combine [JStr "+"]; Class "c"; Combine []] in
     CssSelectorBuilder.stringify 1 r) module_heap
    = Ok s (<[cssSelectorBuilder := CssSelectorBuilder.constructor]> module_heap)
    /\ (let* r := chain cssSelectorBuilder
                    (without_combine
                       [Element "div"; Combine [JStr "+"]; Class "c"; Combine []]) in
        CssSelectorBuilder.stringify 1 r) module_heap
       = Ok s (<[cssSelectorBuilder := CssSelectorBuilder.constructor]> module_heap).
Proof.
  split; [reflexivity|]. split; [reflexivity|].
  apply (combine_never_rendered 0
           [Element "div"; Combine [JStr "+"]; Class "c"; Combine []]
           module_heap cssSelectorBuilder CssSelectorBuilder.constructor);
    reflexivity.
Defined.

(** ** Rendering consumes the accumulation *)

(** X6.  Rendering is not repeatable: a second [stringify] right after the
    first returns the empty string, whatever the first one returned. *)
Theorem stringify_twice_second_empty (fuel : nat) (h : heap) (this : loc)
    (o : instance) :
  h !! this = Some o ->
  selector1 o = None ->
  stringify_twice (S fuel) this h
  = Ok (canonical o, "") (<[this := CssSelectorBuilder.constructor]> h).
Proof.
  intros Hthis Hs1. unfold stringify_twice, bind.
  rewrite (stringify_simple fuel h this o Hthis Hs1).
  rewrite (stringify_simple fuel _ this CssSelectorBuilder.constructor)
    by (try apply lookup_insert_eq; reflexivity).
  unfold ret. now rewrite insert_insert_eq, simple_canonical.
Qed.

Lemma stringify_twice_second_empty_witness :
  ({[ cssSelectorBuilder :=
        run_calls [Element "a"; Id "b"] CssSelectorBuilder.constructor ]} : heap)
    !! cssSelectorBuilder
  = Some (run_calls [Element "a"; Id "b"] CssSelectorBuilder.constructor)
  /\ selector1 (run_calls [Element "a"; Id "b"] CssSelectorBuilder.constructor)
     = None
  /\ stringify_twice 1 cssSelectorBuilder
       {[ cssSelectorBuilder :=
            run_calls [Element "a"; Id "b"] CssSelectorBuilder.constructor ]}
     = Ok ("a#b", "")
          (<[cssSelectorBuilder := CssSelectorBuilder.constructor]>
             {[ cssSelectorBuilder :=
                  run_calls [Element "a"; Id "b"] CssSelectorBuilder.constructor ]}).
Proof.
  split; [reflexivity|]. split; [reflexivity|].
  apply (stringify_twice_second_empty 0 _ cssSelectorBuilder
           (run_calls [Element "a"; Id "b"] CssSelectorBuilder.constructor));
    reflexivity.
Defined.

(** X7.  [clean] and the constructor agree: whatever an instance holds,
    the combination properties and the combinator included, [clean] leaves
    it with exactly the properties of a newly constructed instance, and
    touches no other instance. *)
Theorem clean_restores_constructor_state (h : heap) (this : loc) (o : instance) :
  h !! this = Some o ->
  exists h',
    CssSelectorBuilder.clean this h = Ok tt h'
    /\ h' !! this = Some CssSelectorBuilder.constructor
    /\ forall l, l <> this -> h' !! l = h !! l.
Proof.
  intros Hthis. exists (<[this := CssSelectorBuilder.constructor]> h).
  split; [apply (clean_ok h this o Hthis)|].
  split; [apply lookup_insert_eq|].
  intros l Hl. now apply lookup_insert_ne.
Qed.

Lemma clean_restores_constructor_state_witness :
  ({[ cssSelectorBuilder :=
        mkInstance "div" "main" ["c"] ["a=1"] ["hover"] "before"
          (Some 2%positive) (Some 3%positive) (JStr "+") ]} : heap)
    !! cssSelectorBuilder
  = Some (mkInstance "div" "main" ["c"] ["a=1"] ["hover"] "before"
            (Some 2%positive) (Some 3%positive) (JStr "+"))
  /\ exists h',
    CssSelectorBuilder.clean cssSelectorBuilder
      {[ cssSelectorBuilder :=
           mkInstance "div" "main" ["c"] ["a=1"] ["hover"] "before"
             (Some 2%positive) (Some 3%positive) (JStr "+") ]}
    = Ok tt h'
    /\ h' !! cssSelectorBuilder = Some CssSelectorBuilder.constructor
    /\ forall l, l <> cssSelectorBuilder ->
         h' !! l
         = ({[ cssSelectorBuilder :=
                 mkInstance "div" "main" ["c"] ["a=1"] ["hover"] "before"
                   (Some 2%positive) (Some 3%positive) (JStr "+") ]} : heap) !! l.
Proof.
  split; [reflexivity|].
  apply (clean_restores_constructor_state _ cssSelectorBuilder
           (mkInstance "div" "main" ["c"] ["a=1"] ["hover"] "before"
              (Some 2%positive) (Some 3%positive) (JStr "+"))).
  reflexivity.
Defined.

(** ** Separate instances *)

(** X8.  Two different instances do not interfere: when the building calls
    of two chains on two different instances are interleaved, each chain
    renders what its own calls built. *)
Theorem distinct_instances_isolated (fuel : nat) (a b : loc)
    (csA csB : list call) (h : heap) (oa ob : instance) :
  a <> b ->
  h !! a = Some oa -> h !! b = Some ob ->
  selector1 oa = None -> selector1 ob = None ->
  interleaved_on (S fuel) a b csA csB h
  = Ok (canonical (run_calls csA oa), canonical (run_calls csB ob))
       (<[b := CssSelectorBuilder.constructor]>
          (<[a := CssSelectorBuilder.constructor]> h)).
Proof.
  intros Hab Ha Hb Ha1 Hb1. unfold interleaved_on, bind.
  rewrite (chain_ok csA h a oa Ha).
  rewrite (chain_ok csB _ b ob) by now rewrite lookup_insert_ne.
  rewrite (stringify_simple fuel _ a (run_calls csA oa)).
  2: { rewrite lookup_insert_ne by congruence. apply lookup_insert_eq. }
  2: { now rewrite run_calls_selector1. }
  rewrite (stringify_simple fuel _ b (run_calls csB ob)).
  2: { rewrite lookup_insert_ne by assumption. apply lookup_insert_eq. }
  2: { now rewrite run_calls_selector1. }
  unfold ret. rewrite !simple_canonical. f_equal.
  apply map_eq. intros i. rewrite !lookup_insert.
  repeat case_decide; congruence.
Qed.

Lemma distinct_instances_isolated_witness :
  cssSelectorBuilder <> 2%positive
  /\ (<[2%positive := CssSelectorBuilder.constructor]> module_heap)
       !! cssSelectorBuilder = Some CssSelectorBuilder.constructor
  /\ (<[2%positive := CssSelectorBuilder.constructor]> module_heap)
       !! 2%positive = Some CssSelectorBuilder.constructor
  /\ interleaved_on 1 cssSelectorBuilder 2%positive [Class "x"] [Class "y"]
       (<[2%positive := CssSelectorBuilder.constructor]> module_heap)
     = Ok (".x", ".y")
          (<[2%positive := CssSelectorBuilder.constructor]>
             (<[cssSelectorBuilder := CssSelectorBuilder.constructor]>
                (<[2%positive := CssSelectorBuilder.constructor]> module_heap))).
Proof.
  split; [discriminate|]. split; [reflexivity|]. split; [reflexivity|].
  apply (distinct_instances_isolated 0 cssSelectorBuilder 2%positive
           [Class "x"] [Class "y"] _
           CssSelectorBuilder.constructor CssSelectorBuilder.constructor);
    first [discriminate | reflexivity].
Defined.

(** ** The combination branch of [stringify] *)

Lemma stringify_combination_witness :
  CssSelectorBuilder.stringify 2 1%positive
    (<[1%positive := mkInstance "" "" [] [] [] "" (Some 2%positive)
                       (Some 3%positive) (JStr "+")]>
       (<[2%positive := mkInstance "div" "" [] [] [] "" None None (JStr "")]>
          (<[3%positive := mkInstance "span" "" [] [] [] "" None None (JStr "")]>
             ∅)))
  = Ok "div + span"
       (<[1%positive := CssSelectorBuilder.constructor]>
          (<[3%positive := CssSelectorBuilder.constructor]>
             (<[2%positive := CssSelectorBuilder.constructor]>
                (<[1%positive := mkInstance "" "" [] [] [] "" (Some 2%positive)
                                   (Some 3%positive) (JStr "+")]>
                   (<[2%positive := mkInstance "div" "" [] [] [] "" None None
                                      (JStr "")]>
                      (<[3%positive := mkInstance "span" "" [] [] [] "" None None
                                         (JStr "")]> ∅)))))).
Proof.
  apply (stringify_combination 0 _ 1%positive 2%positive 3%positive
           (mkInstance "" "" [] [] [] "" (Some 2%positive) (Some 3%positive)
              (JStr "+"))
           (mkInstance "div" "" [] [] [] "" None None (JStr ""))
           (mkInstance "span" "" [] [] [] "" None None (JStr "")));
    first [discriminate | reflexivity].
Defined.

(** The body of [stringify] when its receiver is a combination. *)
Lemma stringify_combination_step (fuel : nat) (h : heap) (this l : loc)
    (o : instance) :
  h !! this = Some o -> selector1 o = Some l ->
  CssSelectorBuilder.stringify (S fuel) this h
  = (let* result :=
       (let* r1 := CssSelectorBuilder.stringify fuel l in
        let* o1 := read this in
        let* o2 := read this in
        match selector2 o2 with
        | Some s2 =>
            let* r2 := CssSelectorBuilder.stringify fuel s2 in
            ret ((("" +:+ r1) +:+ " " +:+ to_string (combinator o1) +:+ " ")
                 +:+ r2)
        | None => throw TypeError
        end) in
     CssSelectorBuilder.clean this;; ret result) h.
Proof.
  intros Hthis Hs1. cbn [CssSelectorBuilder.stringify].
  unfold bind at 1. rewrite (read_ok h this o Hthis), Hs1. reflexivity.
Qed.

(** X10.  A combination with a left operand and no right operand cannot be
    rendered: [stringify] throws a [TypeError] on reading [selector2].  By
    then the left operand has been rendered and reset, and the receiver
    itself is left as it was. *)
Theorem stringify_missing_right_operand (fuel : nat) (h : heap)
    (this l : loc) (o ol : instance) :
  h !! this = Some o -> selector1 o = Some l -> selector2 o = None ->
  l <> this ->
  h !! l = Some ol -> selector1 ol = None ->
  CssSelectorBuilder.stringify (S (S fuel)) this h
  = Throw TypeError (<[l := CssSelectorBuilder.constructor]> h).
Proof.
  intros Hthis Hs1 Hs2 Hlt Hl Hl1.
  rewrite (stringify_combination_step _ h this l o Hthis Hs1).
  unfold bind at 1. unfold bind at 1.
  rewrite (stringify_simple fuel h l ol Hl Hl1).
  assert (Hthis1 : <[l := CssSelectorBuilder.constructor]> h !! this = Some o)
    by now rewrite lookup_insert_ne.
  unfold bind at 1. rewrite (read_ok _ this o Hthis1).
  unfold bind at 1. rewrite (read_ok _ this o Hthis1), Hs2.
  reflexivity.
Qed.

Lemma stringify_missing_right_operand_witness :
  CssSelectorBuilder.stringify 2 1%positive
    (<[1%positive := mkInstance "" "" [] [] [] "" (Some 2%positive) None
                       (JStr "+")]>
       (<[2%positive := mkInstance "div" "" [] [] [] "" None None (JStr "")]> ∅))
  = Throw TypeError
      (<[2%positive := CssSelectorBuilder.constructor]>
         (<[1%positive := mkInstance "" "" [] [] [] "" (Some 2%positive) None
                            (JStr "+")]>
            (<[2%positive := mkInstance "div" "" [] [] [] "" None None (JStr "")]>
               ∅))).
Proof.
  apply (stringify_missing_right_operand 0 _ 1%positive 2%positive
           (mkInstance "" "" [] [] [] "" (Some 2%positive) None (JStr "+"))
           (mkInstance "div" "" [] [] [] "" None None (JStr "")));
    first [discriminate | reflexivity].
Defined.

(** X11.  A combination whose left operand is the receiver itself never
    renders: whatever the depth of the call stack, [stringify] ends in a
    [RangeError], and it has written nothing. *)
Theorem stringify_self_reference (fuel : nat) (h : heap) (this : loc)
    (o : instance) :
  h !! this = Some o -> selector1 o = Some this ->
  CssSelectorBuilder.stringify fuel this h = Throw RangeError h.
Proof.
  intros Hthis Hs1. induction fuel as [|fuel IH]; [reflexivity|].
  rewrite (stringify_combination_step _ h this this o Hthis Hs1).
  unfold bind at 1. unfold bind at 1. now rewrite IH.
Qed.

Lemma stringify_self_reference_witness :
  CssSelectorBuilder.stringify 5 cssSelectorBuilder
    {[ cssSelectorBuilder :=
         mkInstance "div" "" [] [] [] "" (Some cssSelectorBuilder)
           (Some cssSelectorBuilder) (JStr "+") ]}
  = Throw RangeError
      {[ cssSelectorBuilder :=
           mkInstance "div" "" [] [] [] "" (Some cssSelectorBuilder)
             (Some cssSelectorBuilder) (JStr "+") ]}.
Proof.
  apply (stringify_self_reference 5 _ cssSelectorBuilder
           (mkInstance "div" "" [] [] [] "" (Some cssSelectorBuilder)
              (Some cssSelectorBuilder) (JStr "+")));
    reflexivity.
Defined.

(** X12.  A combination whose two operands are one and the same instance
    renders that instance on the left only: rendering the left operand
    resets it, so the right operand contributes the empty string. *)
Theorem stringify_same_operand_twice (fuel : nat) (h : heap) (this l : loc)
    (o ol : instance) :
  h !! this = Some o -> selector1 o = Some l -> selector2 o = Some l ->
  l <> this ->
  h !! l = Some ol -> selector1 ol = None ->
  CssSelectorBuilder.stringify (S (S fuel)) this h
  = Ok (canonical ol +:+ " " +:+ to_string (combinator o) +:+ " ")
       (<[this := CssSelectorBuilder.constructor]>
          (<[l := CssSelectorBuilder.constructor]> h)).
Proof.
  intros Hthis Hs1 Hs2 Hlt Hl Hl1.
  rewrite (stringify_combination_step _ h this l o Hthis Hs1).
  unfold bind at 1. unfold bind at 1.
  rewrite (stringify_simple fuel h l ol Hl Hl1).
  assert (Hthis1 : <[l := CssSelectorBuilder.constructor]> h !! this = Some o)
    by now rewrite lookup_insert_ne.
  unfold bind at 1. rewrite (read_ok _ this o Hthis1).
  unfold bind at 1. rewrite (read_ok _ this o Hthis1), Hs2.
  unfold bind at 1.
  rewrite (stringify_simple fuel _ l CssSelectorBuilder.constructor)
    by (try apply lookup_insert_eq; reflexivity).
  unfold ret at 1. rewrite insert_insert_eq.
  unfold bind. rewrite (clean_ok _ this o Hthis1). unfold ret.
  rewrite simple_canonical.
  change (CssSelectorBuilder.simple CssSelectorBuilder.constructor) with "".
  rewrite ?append_nil_l, ?append_nil_r, ?append_assoc.
  rewrite ?append_nil_r. reflexivity.
Qed.

Lemma stringify_same_operand_twice_witness :
  CssSelectorBuilder.stringify 2 1%positive
    (<[1%positive := mkInstance "" "" [] [] [] "" (Some 2%positive)
                       (Some 2%positive) (JStr "+")]>
       (<[2%positive := mkInstance "div" "" [] [] [] "" None None (JStr "")]> ∅))
  = Ok "div + "
       (<[1%positive := CssSelectorBuilder.constructor]>
          (<[2%positive := CssSelectorBuilder.constructor]>
             (<[1%positive := mkInstance "" "" [] [] [] "" (Some 2%positive)
                                (Some 2%positive) (JStr "+")]>
                (<[2%positive := mkInstance "div" "" [] [] [] "" None None
                                   (JStr "")]> ∅)))).
Proof.
  apply (stringify_same_operand_twice 0 _ 1%positive 2%positive
           (mkInstance "" "" [] [] [] "" (Some 2%positive) (Some 2%positive)
              (JStr "+"))
           (mkInstance "div" "" [] [] [] "" None None (JStr "")));
    first [discriminate | reflexivity].
Defined.

(** ** Values are passed through as they are *)

Lemma flat_app (xs ys : list string) : flat (xs ++ ys) = flat xs +:+ flat ys.
Proof.
  induction xs as [|x xs IH]; [reflexivity|].
  cbn [app]. unfold flat in *. cbn [fold_right].
  now rewrite IH, append_assoc.
Qed.

Lemma prefixed_app (p : string) (xs ys : list string) :
  prefixed p (xs ++ ys) = prefixed p xs +:+ prefixed p ys.
Proof. unfold prefixed. now rewrite map_app, flat_app. Qed.

(** X13.  The builder does not keep its values apart in the output: two
    [attr] calls render as the one call with the two expressions
    concatenated, and two [class] calls render as the one call with the two
    names joined by a ['.']. *)
Theorem adjacent_values_merge (fuel : nat) (h : heap) (this : loc)
    (o : instance) (x y : string) :
  h !! this = Some o ->
  selector1 o = None ->
  (let* r := chain this [Attr x; Attr y] in
   CssSelectorBuilder.stringify (S fuel) r) h
  = (let* r := chain this [Attr (x +:+ y)] in
     CssSelectorBuilder.stringify (S fuel) r) h
  /\ (let* r := chain this [Class x; Class y] in
      CssSelectorBuilder.stringify (S fuel) r) h
     = (let* r := chain this [Class (x +:+ "." +:+ y)] in
        CssSelectorBuilder.stringify (S fuel) r) h.
Proof.
  intros Hthis Hs1.
  rewrite !(chain_stringify fuel _ h this o Hthis Hs1).
  split; f_equal; unfold canonical; do 2 f_equal.
  - f_equal. f_equal. unfold attribute_group.
    cbn [run_calls fold_left apply_call attributes set_attributes].
    rewrite <- app_assoc. cbn [app].
    destruct (attributes o) as [|a l]; cbn [app].
    + unfold flat. cbn [fold_right]. now rewrite !append_nil_r.
    + do 2 f_equal. change (a :: l ++ [x; y]) with ((a :: l) ++ [x; y]).
      change (a :: l ++ [x +:+ y]) with ((a :: l) ++ [x +:+ y]).
      rewrite !flat_app. unfold flat. cbn [fold_right].
      now rewrite !append_nil_r.
  - f_equal. unfold class_group.
    cbn [run_calls fold_left apply_call classNames set_classNames].
    rewrite <- app_assoc. cbn [app]. rewrite !prefixed_app.
    unfold prefixed, flat. cbn [map fold_right].
    now rewrite !append_nil_r, !append_assoc.
Qed.

Lemma adjacent_values_merge_witness :
  module_heap !! cssSelectorBuilder = Some CssSelectorBuilder.constructor
  /\ selector1 CssSelectorBuilder.constructor = None
  /\ (let* r := chain cssSelectorBuilder [Attr "x"; Attr "y"] in
      CssSelectorBuilder.stringify 1 r) module_heap
     = (let* r := chain cssSelectorBuilder [Attr ("x" +:+ "y")] in
        CssSelectorBuilder.stringify 1 r) module_heap
  /\ (let* r := chain cssSelectorBuilder [Class "x"; Class "y"] in
      CssSelectorBuilder.stringify 1 r) module_heap
     = (let* r := chain cssSelectorBuilder [Class ("x" +:+ "." +:+ "y")] in
        CssSelectorBuilder.stringify 1 r) module_heap.
Proof.
  split; [reflexivity|]. split; [reflexivity|].
  apply (adjacent_values_merge 0 module_heap cssSelectorBuilder
           CssSelectorBuilder.constructor "x" "y"); reflexivity.
Defined.

(** X14.  The empty string unsets: [id('')] removes an id set before, and
    [pseudoElement('')] removes a pseudo-element set before, so the group is
    absent from the rendered string. *)
Theorem empty_string_unsets (fuel : nat) (h : heap) (this : loc) (o : instance) :
  h !! this = Some o ->
  selector1 o = None ->
  (let* r := chain this [Id ""] in CssSelectorBuilder.stringify (S fuel) r) h
  = Ok (element_group o +:+ class_group o +:+ attribute_group o
        +:+ pseudoClass_group o +:+ pseudoElement_group o)
       (<[this := CssSelectorBuilder.constructor]> h)
  /\ (let* r := chain this [PseudoElement ""] in
      CssSelectorBuilder.stringify (S fuel) r) h
     = Ok (element_group o +:+ id_group o +:+ class_group o
           +:+ attribute_group o +:+ pseudoClass_group o)
          (<[this := CssSelectorBuilder.constructor]> h).
Proof.
  intros Hthis Hs1.
  rewrite !(chain_stringify fuel _ h this o Hthis Hs1).
  split; [reflexivity|].
  f_equal. unfold canonical.
  change (pseudoElement_group (run_calls [PseudoElement ""] o)) with "".
  cbn [run_calls fold_left apply_call].
  change (element_group (set_pseudoElem "" o)) with (element_group o).
  change (id_group (set_pseudoElem "" o)) with (id_group o).
  change (class_group (set_pseudoElem "" o)) with (class_group o).
  change (attribute_group (set_pseudoElem "" o)) with (attribute_group o).
  change (pseudoClass_group (set_pseudoElem "" o)) with (pseudoClass_group o).
  now rewrite append_nil_r.
Qed.

Lemma empty_string_unsets_witness :
  ({[ cssSelectorBuilder :=
        run_calls [Element "a"; Id "b"; PseudoElement "c"]
          CssSelectorBuilder.constructor ]} : heap) !! cssSelectorBuilder
  = Some (run_calls [Element "a"; Id "b"; PseudoElement "c"]
            CssSelectorBuilder.constructor)
  /\ (let* r := chain cssSelectorBuilder [Id ""] in
      CssSelectorBuilder.stringify 1 r)
       {[ cssSelectorBuilder :=
            run_calls [Element "a"; Id "b"; PseudoElement "c"]
              CssSelectorBuilder.constructor ]}
     = Ok "a::c"
          (<[cssSelectorBuilder := CssSelectorBuilder.constructor]>
             {[ cssSelectorBuilder :=
                  run_calls [Element "a"; Id "b"; PseudoElement "c"]
                    CssSelectorBuilder.constructor ]})
  /\ (let* r := chain cssSelectorBuilder [PseudoElement ""] in
      CssSelectorBuilder.stringify 1 r)
       {[ cssSelectorBuilder :=
            run_calls [Element "a"; Id "b"; PseudoElement "c"]
              CssSelectorBuilder.constructor ]}
     = Ok "a#b"
          (<[cssSelectorBuilder := CssSelectorBuilder.constructor]>
             {[ cssSelectorBuilder :=
                  run_calls [Element "a"; Id "b"; PseudoElement "c"]
                    CssSelectorBuilder.constructor ]}).
Proof.
  split; [reflexivity|].
  apply (empty_string_unsets 0 _ cssSelectorBuilder
           (run_calls [Element "a"; Id "b"; PseudoElement "c"]
              CssSelectorBuilder.constructor)); reflexivity.
Defined.

(** * [getJSON] and [fromJSON] *)

(** [JSON.parse] reads back what [JSON.stringify] wrote, for data whose
    numbers JSON text can denote. *)
Lemma in_text_serializable :
  forall v : ObjectsTasks.data,
    ObjectsTasks.serializable v = true -> ObjectsTasks.in_text v = v.
Proof.
  fix IH 1. intros [| b | x | s | items | members] Hser; cbn in *;
    try reflexivity.
  - destruct x; (reflexivity || discriminate).
  - f_equal. induction items as [|i items IHitems]; [reflexivity|].
    cbn in *. apply andb_true_iff in Hser as [Hi Hrest].
    f_equal; [now apply IH | now apply IHitems].
  - f_equal. induction members as [|[k m] members IHmembers]; [reflexivity|].
    cbn in *. apply andb_true_iff in Hser as [Hm Hrest].
    f_equal; [f_equal; now apply IH | now apply IHmembers].
Qed.

Lemma parse_stringify (v : ObjectsTasks.data) :
  ObjectsTasks.serializable v = true ->
  ObjectsTasks.JSON_parse (ObjectsTasks.JSON_stringify v)
  = ObjectsTasks.Returned v.
Proof.
  intros Hser. unfold ObjectsTasks.JSON_stringify. cbn.
  now rewrite in_text_serializable.
Qed.

Lemma has_own_false (key : string) (ps : ObjectsTasks.properties) :
  ~ In key (map fst ps) -> ObjectsTasks.has_own key ps = false.
Proof.
  intros Hnot. unfold ObjectsTasks.has_own.
  destruct (existsb (String.eqb key) (map fst ps)) eqn:E; [|reflexivity].
  apply existsb_exists in E as (k & Hin & Heq).
  apply String.eqb_eq in Heq. subst. contradiction.
Qed.

(** Keys that the chain lets through are added one by one, after the own
    properties there are, and the prototype stays. *)
Lemma assign_properties_creates (proto : option ObjectsTasks.prototype_object)
    (done todo : ObjectsTasks.properties) :
  List.NoDup (map fst (done ++ todo)) ->
  forallb (ObjectsTasks.creates_own proto) (map fst todo) = true ->
  ObjectsTasks.assign_properties
    (ObjectsTasks.mkObject
       (ObjectsTasks.prototype (ObjectsTasks.Object_create proto)) done) todo
  = ObjectsTasks.Returned
      (ObjectsTasks.mkObject
         (ObjectsTasks.prototype (ObjectsTasks.Object_create proto))
         (done ++ todo)).
Proof.
  revert done. induction todo as [|[key v] todo IH]; intros done Hnodup Hcreates.
  - cbn. now rewrite app_nil_r.
  - cbn in Hcreates. apply andb_true_iff in Hcreates as [Hkey Hrest].
    cbn [ObjectsTasks.assign_properties].
    assert (Hfresh : ~ In key (map fst done)).
    { rewrite map_app in Hnodup. cbn in Hnodup.
      apply List.NoDup_remove_2 in Hnodup.
      intros Hin. apply Hnodup. apply in_or_app. now left. }
    unfold ObjectsTasks.assign_property.
    cbn [ObjectsTasks.own ObjectsTasks.prototype].
    rewrite (has_own_false key done Hfresh).
    assert (Hslot :
      match ObjectsTasks.first_on_chain
              (ObjectsTasks.prototype (ObjectsTasks.Object_create proto)) key with
      | None | Some ObjectsTasks.WritableData => True
      | Some _ => False
      end).
    { destruct proto as [p|]; cbn in *; [|exact I].
      destruct (ObjectsTasks.along_chain p !! key) as [[| | | |]|];
        (exact I || discriminate). }
    destruct (ObjectsTasks.first_on_chain _ key) as [[| | | |]|];
      try contradiction.
    + rewrite (IH (done ++ [(key, v)])).
      * now rewrite <- app_assoc.
      * now rewrite <- app_assoc.
      * exact Hrest.
    + rewrite (IH (done ++ [(key, v)])).
      * now rewrite <- app_assoc.
      * now rewrite <- app_assoc.
      * exact Hrest.
Qed.

Lemma distinct_NoDup (keys : list string) :
  ObjectsTasks.distinct keys = true -> List.NoDup keys.
Proof.
  induction keys as [|k keys IH]; intros Hd; [constructor|].
  cbn in Hd. apply andb_true_iff in Hd as [Hk Hrest].
  constructor; [|now apply IH].
  intros Hin. apply negb_true_iff in Hk.
  assert (Hex : existsb (String.eqb k) keys = true).
  { apply existsb_exists. exists k. split; [exact Hin|apply String.eqb_refl]. }
  congruence.
Qed.

(** The claim of C10 fails on the code.  With
    [class Circle { set radius(v) { this._radius = v; } }],
    [fromJSON(Circle.prototype, getJSON({radius: 10}))] has the own property
    [_radius] and no own property [radius]: [Object.assign] assigns, and the
    assignment calls the set function of the prototype.  With a prototype
    that inherits from [Object.prototype] and an object that has an own
    property [__proto__] with the value [null], the assignment replaces the
    prototype, which is [null] in the end, and creates no own property
    [__proto__]. *)
Lemma C10_round_trip_fails :
  ObjectsTasks.fromJSON (Some ObjectsTasks.circle_with_setter)
    (ObjectsTasks.getJSON
       (ObjectsTasks.Object
          [("radius", ObjectsTasks.Number (ObjectsTasks.Finite 10 0))]))
  = ObjectsTasks.Returned
      (ObjectsTasks.mkObject
         (ObjectsTasks.ProtoArgument ObjectsTasks.circle_with_setter)
         [("_radius", ObjectsTasks.Number (ObjectsTasks.Finite 10 0))])
  /\ ObjectsTasks.fromJSON (Some ObjectsTasks.circle_with_setter)
       (ObjectsTasks.getJSON
          (ObjectsTasks.Object
             [("radius", ObjectsTasks.Number (ObjectsTasks.Finite 10 0))]))
     <> ObjectsTasks.Returned
          (ObjectsTasks.mkObject
             (ObjectsTasks.ProtoArgument ObjectsTasks.circle_with_setter)
             [("radius", ObjectsTasks.Number (ObjectsTasks.Finite 10 0))])
  /\ ObjectsTasks.fromJSON (Some ObjectsTasks.circle_with_method)
       (ObjectsTasks.getJSON
          (ObjectsTasks.Object
             [("__proto__", ObjectsTasks.Null);
              ("radius", ObjectsTasks.Number (ObjectsTasks.Finite 10 0))]))
     = ObjectsTasks.Returned
         (ObjectsTasks.mkObject ObjectsTasks.ProtoNull
            [("radius", ObjectsTasks.Number (ObjectsTasks.Finite 10 0))]).
Proof.
  split; [vm_compute; reflexivity|]. split; [|vm_compute; reflexivity].
  intros Heq.
  assert (Hown :
    ObjectsTasks.own
      (ObjectsTasks.mkObject
         (ObjectsTasks.ProtoArgument ObjectsTasks.circle_with_setter)
         [("_radius", ObjectsTasks.Number (ObjectsTasks.Finite 10 0))])
    = [("radius", ObjectsTasks.Number (ObjectsTasks.Finite 10 0))]).
  { assert (Hrun :
      ObjectsTasks.fromJSON (Some ObjectsTasks.circle_with_setter)
        (ObjectsTasks.getJSON
           (ObjectsTasks.Object
              [("radius", ObjectsTasks.Number (ObjectsTasks.Finite 10 0))]))
      = ObjectsTasks.Returned
          (ObjectsTasks.mkObject
             (ObjectsTasks.ProtoArgument ObjectsTasks.circle_with_setter)
             [("_radius", ObjectsTasks.Number (ObjectsTasks.Finite 10 0))]))
      by (vm_compute; reflexivity).
    rewrite Hrun in Heq. injection Heq as Heq. now rewrite Heq. }
  cbn in Hown. discriminate Hown.
Qed.

(** C10 (amended).  For every prototype [proto], an ordinary object or
    [null], and every plain object [obj] that holds each key once and whose
    numbers are all finite and not negative zero, if under every key of
    [obj] the prototype chain of [proto] holds no property or a writable
    data property (so no accessor, the [__proto__] of [Object.prototype]
    included, and no read-only property), then
    [fromJSON(proto, getJSON(obj))] returns an object whose own properties
    are those of [obj] and whose prototype is [proto]. *)
Theorem C10_round_trip (proto : option ObjectsTasks.prototype_object)
    (members : list (string * ObjectsTasks.data)) :
  ObjectsTasks.serializable (ObjectsTasks.Object members) = true ->
  ObjectsTasks.distinct (map fst members) = true ->
  forallb (ObjectsTasks.creates_own proto) (map fst members) = true ->
  ObjectsTasks.fromJSON proto (ObjectsTasks.getJSON (ObjectsTasks.Object members))
  = ObjectsTasks.Returned
      (ObjectsTasks.mkObject
         match proto with
         | Some p => ObjectsTasks.ProtoArgument p
         | None => ObjectsTasks.ProtoNull
         end
         members).
Proof.
  intros Hser Hdistinct Hcreates.
  unfold ObjectsTasks.fromJSON, ObjectsTasks.getJSON.
  rewrite (parse_stringify _ Hser).
  unfold ObjectsTasks.Object_assign. cbn [ObjectsTasks.own_enumerable].
  pose proof (assign_properties_creates proto [] members) as Hassign.
  cbn [app] in Hassign.
  replace (ObjectsTasks.Object_create proto)
    with (ObjectsTasks.mkObject
            (ObjectsTasks.prototype (ObjectsTasks.Object_create proto)) [])
    by now destruct proto.
  rewrite Hassign; [now destruct proto| |exact Hcreates].
  now apply distinct_NoDup.
Qed.

Lemma C10_round_trip_witness :
  ObjectsTasks.serializable
    (ObjectsTasks.Object
       [("radius", ObjectsTasks.Number (ObjectsTasks.Finite 10 0))]) = true
  /\ ObjectsTasks.distinct
       (map fst [("radius", ObjectsTasks.Number (ObjectsTasks.Finite 10 0))])
     = true
  /\ forallb (ObjectsTasks.creates_own (Some ObjectsTasks.circle_with_method))
       (map fst [("radius", ObjectsTasks.Number (ObjectsTasks.Finite 10 0))])
     = true
  /\ ObjectsTasks.fromJSON (Some ObjectsTasks.circle_with_method)
       (ObjectsTasks.getJSON
          (ObjectsTasks.Object
             [("radius", ObjectsTasks.Number (ObjectsTasks.Finite 10 0))]))
     = ObjectsTasks.Returned
         (ObjectsTasks.mkObject
            (ObjectsTasks.ProtoArgument ObjectsTasks.circle_with_method)
            [("radius", ObjectsTasks.Number (ObjectsTasks.Finite 10 0))]).
Proof.
  split; [reflexivity|]. split; [reflexivity|]. split; [vm_compute; reflexivity|].
  apply (C10_round_trip (Some ObjectsTasks.circle_with_method)
           [("radius", ObjectsTasks.Number (ObjectsTasks.Finite 10 0))]);
    vm_compute; reflexivity.
Defined.

(** The second example of the class's doc comment renders one simple
    selector, with the parts of its four chains mixed: the documented result
    is ['div#main.container.draggable + table#data ~ tr:nth-of-type(even)
    td:nth-of-type(even)']. *)
Example doc_example_combination_renders :
  doc_example_combination 1 module_heap
  = Ok "div#data.container.draggable:nth-of-type(even):nth-of-type(even)"
       module_heap.
Proof. vm_compute. reflexivity. Qed.

Lemma assign_properties_app (o : ObjectsTasks.object)
    (ps qs : ObjectsTasks.properties) :
  ObjectsTasks.assign_properties o (ps ++ qs)
  = match ObjectsTasks.assign_properties o ps with
    | ObjectsTasks.Returned o' => ObjectsTasks.assign_properties o' qs
    | ObjectsTasks.Thrown e => ObjectsTasks.Thrown e
    end.
Proof.
  revert o. induction ps as [|[k v] ps IH]; intros o; [reflexivity|].
  cbn. destruct (ObjectsTasks.assign_property o k v); [apply IH|reflexivity].
Qed.

(** X16.  [fromJSON] throws a [TypeError] when the object has a key under
    which the prototype chain holds a read-only property or an accessor
    without a set function, as a class with a getter does: [Object.assign]
    assigns, and that assignment fails.  The keys before it are those the
    chain lets through. *)
Theorem fromJSON_getter_only_throws (p : ObjectsTasks.prototype_object)
    (before after : list (string * ObjectsTasks.data)) (key : string)
    (v : ObjectsTasks.data) :
  ObjectsTasks.distinct (map fst (before ++ (key, v) :: after)) = true ->
  forallb (ObjectsTasks.creates_own (Some p)) (map fst before) = true ->
  ObjectsTasks.along_chain p !! key = Some ObjectsTasks.ReadOnlyData
  \/ ObjectsTasks.along_chain p !! key = Some ObjectsTasks.GetterOnly ->
  ObjectsTasks.fromJSON (Some p)
    (ObjectsTasks.Denotes (ObjectsTasks.Object (before ++ (key, v) :: after)))
  = ObjectsTasks.Thrown ObjectsTasks.TypeError.
Proof.
  intros Hdistinct Hcreates Hslot.
  apply distinct_NoDup in Hdistinct. rewrite map_app in Hdistinct.
  cbn [map fst] in Hdistinct.
  pose proof (List.NoDup_remove_2 _ _ _ Hdistinct) as Hfresh.
  pose proof (List.NoDup_remove_1 _ _ _ Hdistinct) as Hrest.
  apply List.NoDup_app_remove_r in Hrest.
  unfold ObjectsTasks.fromJSON, ObjectsTasks.Object_assign.
  cbn [ObjectsTasks.JSON_parse ObjectsTasks.own_enumerable
       ObjectsTasks.Object_create].
  rewrite assign_properties_app.
  pose proof (assign_properties_creates (Some p) [] before) as Hassign.
  cbn [app ObjectsTasks.Object_create ObjectsTasks.prototype] in Hassign.
  rewrite Hassign by assumption.
  cbn [ObjectsTasks.assign_properties].
  unfold ObjectsTasks.assign_property.
  cbn [ObjectsTasks.own ObjectsTasks.prototype ObjectsTasks.first_on_chain].
  rewrite has_own_false.
  - destruct Hslot as [-> | ->]; reflexivity.
  - intros Hin. apply Hfresh. apply in_or_app. now left.
Qed.

Lemma fromJSON_getter_only_throws_witness :
  ObjectsTasks.distinct
    (map fst ([("width", ObjectsTasks.Number (ObjectsTasks.Finite 10 0))]
              ++ ("area", ObjectsTasks.Number (ObjectsTasks.Finite 200 0))
                 :: [("height", ObjectsTasks.Number (ObjectsTasks.Finite 20 0))]))
  = true
  /\ ObjectsTasks.fromJSON (Some ObjectsTasks.rect_with_getter)
       (ObjectsTasks.Denotes
          (ObjectsTasks.Object
             ([("width", ObjectsTasks.Number (ObjectsTasks.Finite 10 0))]
              ++ ("area", ObjectsTasks.Number (ObjectsTasks.Finite 200 0))
                 :: [("height", ObjectsTasks.Number (ObjectsTasks.Finite 20 0))])))
     = ObjectsTasks.Thrown ObjectsTasks.TypeError.
Proof.
  split; [reflexivity|].
  apply (fromJSON_getter_only_throws ObjectsTasks.rect_with_getter
           [("width", ObjectsTasks.Number (ObjectsTasks.Finite 10 0))]
           [("height", ObjectsTasks.Number (ObjectsTasks.Finite 20 0))]
           "area" (ObjectsTasks.Number (ObjectsTasks.Finite 200 0))).
  - reflexivity.
  - vm_compute. reflexivity.
  - right. vm_compute. reflexivity.
Defined.
